(** * datatest: the comparison engine of [datatest/validate.py]

    A shallow embedding of the comparison functions of
    [datatest/validate.py] ([_compare_sequence], [_compare_set],
    [_compare_callable], [_compare_regex], [_compare_other],
    [_do_comparison], [_compare_mapping], [_do_mapping_comparison]) and of
    the [Deviation] constructor exercised by [tests/test_errors.py],
    followed by the properties the specification states about them. *)

From Stdlib Require Import List String Ascii ZArith QArith Bool Lia Arith.
From Stdlib Require Import DecimalString.
Import ListNotations.

Set Warnings "-register-all".

Local Open Scope list_scope.
Local Open Scope string_scope.

(** ** Python objects *)

(** The fragment of Python objects the comparison functions are applied to.
    [VNotFound] is the [NOTFOUND] sentinel of [datatest.errors]; [VNaN] is
    [float('nan')]; a finite float is the rational it denotes; [VObject n]
    is an instance of a user class whose [__eq__] raises (the [BadClass]
    of the tests), [n] being its identity.  A [VSet] lists its members in
    iteration order and a [VDict] its items in iteration order. *)
Inductive value : Type :=
| VNone
| VNotFound
| VBool (b : bool)
| VInt (z : Z)
| VFloat (q : Q)
| VNaN
| VStr (s : string)
| VTuple (items : list value)
| VList (items : list value)
| VSet (members : list value)
| VDict (entries : list (value * value))
| VObject (identity : nat).

(** The four difference classes of [datatest.errors].  [Invalid] takes
    its [expected] argument optionally. *)
Inductive difference : Type :=
| Missing (v : value)
| Extra (v : value)
| Invalid (actual : value) (expected : option value)
| Deviation (diff expected : value).

(** Exceptions, by class. *)
Inductive exn : Type :=
| ValueError (msg : string)
| TypeError (msg : string)
| NameError (msg : string)
| RaisedByEq.                 (* whatever an [__eq__] of a [VObject] raises *)

(** A call either returns or raises. *)
Inductive res (A : Type) : Type :=
| Return (a : A)
| Raise (e : exn).
Arguments Return {A} a.
Arguments Raise {A} e.

Definition bind {A B} (r : res A) (k : A -> res B) : res B :=
  match r with
  | Return a => k a
  | Raise e => Raise e
  end.

Notation "x <- r ;; k" := (bind r (fun x => k))
  (at level 61, r at next level, right associativity).

(** A generator (or any one-pass iterator), given by what it does when it
    is driven: it yields an item and goes on, stops, or raises. *)
Inductive gen (A : Type) : Type :=
| GDone
| GYield (a : A) (rest : gen A)
| GRaise (e : exn).
Arguments GDone {A}.
Arguments GYield {A} a rest.
Arguments GRaise {A} e.

Fixpoint gen_of_list {A} (l : list A) : gen A :=
  match l with
  | [] => GDone
  | a :: l' => GYield a (gen_of_list l')
  end.

(** [itertools.chain(g, h)]; also the sequencing of two loops in the body
    of one generator. *)
Fixpoint chain {A} (g h : gen A) : gen A :=
  match g with
  | GDone => h
  | GYield a g' => GYield a (chain g' h)
  | GRaise e => GRaise e
  end.

(** [list(g)] *)
Fixpoint to_list {A} (g : gen A) : res (list A) :=
  match g with
  | GDone => Return []
  | GYield a g' => l <- to_list g' ;; Return (a :: l)
  | GRaise e => Raise e
  end.

(** The items a generator yields before it stops or raises. *)
Fixpoint yielded {A} (g : gen A) : list A :=
  match g with
  | GYield a g' => a :: yielded g'
  | _ => []
  end.

(** The exception that ends a generator, if one does. *)
Fixpoint raised {A} (g : gen A) : option exn :=
  match g with
  | GDone => None
  | GYield _ g' => raised g'
  | GRaise e => Some e
  end.

(** ** Equality of Python objects *)

(** The outcome of [a == b] (or [a != b]) taken as a truth value. *)
Inductive cmp : Type := CTrue | CFalse | CRaise.

Definition cmp_of_bool (b : bool) : cmp := if b then CTrue else CFalse.

Definition cmp_not (c : cmp) : cmp :=
  match c with
  | CTrue => CFalse
  | CFalse => CTrue
  | CRaise => CRaise
  end.

Definition cmp_and (c d : cmp) : cmp :=
  match c with
  | CTrue => d
  | _ => c
  end.

Definition is_true (c : cmp) : bool :=
  match c with
  | CTrue => true
  | _ => false
  end.

(** [bool], [int] and [float] compare by numeric value. *)
Definition num_of (v : value) : option Q :=
  match v with
  | VBool b => Some (inject_Z (if b then 1%Z else 0%Z))
  | VInt z => Some (inject_Z z)
  | VFloat q => Some q
  | _ => None
  end.

(** [a == b].  Numbers compare by value across [bool], [int] and [float];
    NaN equals nothing; sequences compare item by item, sets and dicts
    by content; any comparison with a [VObject] raises.  The identity
    shortcut CPython takes inside containers is not modelled. *)
Fixpoint py_eq (a b : value) {struct a} : cmp :=
  match a, b with
  | VObject _, _ => CRaise
  | _, VObject _ => CRaise
  | VNone, VNone => CTrue
  | VNotFound, VNotFound => CTrue
  | VStr s, VStr t => cmp_of_bool (String.eqb s t)
  | VTuple l, VTuple m =>
      if Nat.eqb (List.length l) (List.length m) then
        (fix items (l m : list value) : cmp :=
           match l, m with
           | x :: l', y :: m' => cmp_and (py_eq x y) (items l' m')
           | _, _ => CTrue
           end) l m
      else CFalse
  | VList l, VList m =>
      if Nat.eqb (List.length l) (List.length m) then
        (fix items (l m : list value) : cmp :=
           match l, m with
           | x :: l', y :: m' => cmp_and (py_eq x y) (items l' m')
           | _, _ => CTrue
           end) l m
      else CFalse
  | VSet l, VSet m =>
      cmp_of_bool
        (Nat.eqb (List.length l) (List.length m)
         && forallb (fun x => existsb (fun y => is_true (py_eq x y)) m) l)
  | VDict l, VDict m =>
      cmp_of_bool
        (Nat.eqb (List.length l) (List.length m)
         && forallb
              (fun kv =>
                 match kv with
                 | (k, v) =>
                     existsb
                       (fun kw => is_true (py_eq k (fst kw))
                                  && is_true (py_eq v (snd kw))) m
                 end) l)
  | _, _ =>
      match num_of a, num_of b with
      | Some p, Some q => cmp_of_bool (Qeq_bool p q)
      | _, _ => CFalse
      end
  end.

(** [a != b] *)
Definition py_ne (a b : value) : cmp := cmp_not (py_eq a b).

(** [x in s] for a set (or the key set of a dict) [s]. *)
Definition py_in (x : value) (s : list value) : bool :=
  existsb (fun y => is_true (py_eq x y)) s.

(** [s.add(x)] *)
Definition set_add (x : value) (s : list value) : list value :=
  if py_in x s then s else (s ++ [x])%list.

(** [s.difference(t)] *)
Definition set_difference (s t : list value) : list value :=
  filter (fun x => negb (py_in x t)) s.

(** The first component of [v] that has no hash, if there is one. *)
Fixpoint unhashable_part (v : value) : option value :=
  match v with
  | VList _ | VSet _ | VDict _ => Some v
  | VTuple l =>
      (fix first (l : list value) : option value :=
         match l with
         | [] => None
         | x :: l' =>
             match unhashable_part x with
             | Some u => Some u
             | None => first l'
             end
         end) l
  | _ => None
  end.

(** ** Classification of objects *)

Definition isinstance_str (v : value) : bool :=
  match v with
  | VStr _ => true
  | _ => false
  end.

(** [isinstance(v, collections.Sequence)] *)
Definition isinstance_Sequence (v : value) : bool :=
  match v with
  | VStr _ | VTuple _ | VList _ => true
  | _ => false
  end.

(** [isinstance(v, collections.Mapping)] *)
Definition isinstance_Mapping (v : value) : bool :=
  match v with
  | VDict _ => true
  | _ => false
  end.

(** [isinstance(v, collections.Set)] *)
Definition isinstance_Set (v : value) : bool :=
  match v with
  | VSet _ => true
  | _ => false
  end.

(** Modelled from the spec: [_is_nsiterable] of [datatest/utils/misc.py],
    which is imported by validate.py and is not part of the sources at
    hand; the specification describes it as the black-box predicate
    "is this iterable-but-not-string". *)
Definition _is_nsiterable (v : value) : bool :=
  match v with
  | VTuple _ | VList _ | VSet _ | VDict _ => true
  | _ => false
  end.

(** The characters of a string, as one-character strings. *)
Definition characters (s : string) : list value :=
  map (fun c => VStr (String c EmptyString)) (list_ascii_of_string s).

(** What iterating over [v] produces, for an iterable [v]. *)
Definition items_of (v : value) : list value :=
  match v with
  | VStr s => characters s
  | VTuple l | VList l | VSet l => l
  | VDict entries => map fst entries
  | _ => []
  end.

Definition iterable (v : value) : bool :=
  isinstance_str v || _is_nsiterable v.

(** [d.items()] *)
Definition dict_items (v : value) : list value :=
  match v with
  | VDict entries => map (fun kv => VTuple [fst kv; snd kv]) entries
  | _ => []
  end.

(** ** Requirements *)

(** What a call of a predicate gives back: an object or a difference. *)
Inductive returned : Type :=
| RValue (v : value)
| RDifference (d : difference).

(** A call of a predicate returns, or raises an [Exception]. *)
Inductive outcome : Type :=
| Returns (r : returned)
| Throws.

(** [regex.search(element)] returns a match object, returns [None], or
    raises. *)
Inductive search_outcome : Type :=
| Match
| NoMatch
| SearchRaises (e : exn).

(** A requirement: a function (with its [__name__], applied to its
    positional arguments), a compiled pattern (given by its [search]), or
    any other object. *)
Inductive requirement : Type :=
| Callable (name : string) (function : list value -> outcome)
| Pattern (search : value -> search_outcome)
| Obj (v : value).

(** ** Difference reports *)

(** What a comparison hands back: [None], one difference, the
    [AssertionError] of the sequence comparison, a one-pass iterator of
    differences, a list of differences, or a dict of differences keyed by
    pairs of positions. *)
Inductive report : Type :=
| NoDifference
| Single (d : difference)
| Assertion (message : string)
| Lazy (g : gen difference)
| Materialized (l : list difference)
| Keyed (m : list ((nat * nat) * difference)).

(** [bool(r)] *)
Definition truthy (r : report) : bool :=
  match r with
  | NoDifference => false
  | Materialized [] => false
  | Keyed [] => false
  | _ => true
  end.

Definition report_is_nsiterable (r : report) : bool :=
  match r with
  | Lazy _ | Materialized _ | Keyed _ => true
  | _ => false
  end.

Definition report_is_Mapping (r : report) : bool :=
  match r with
  | Keyed _ => true
  | _ => false
  end.

(** ** Strings *)

Definition newline : string := String (ascii_of_nat 10) EmptyString.

(** [str(n)] for a non-negative integer. *)
Definition decimal (n : nat) : string := NilZero.string_of_uint (Nat.to_uint n).

(** [s * n] *)
Fixpoint repeat_string (s : string) (n : nat) : string :=
  match n with
  | O => ""
  | S n' => s ++ repeat_string s n'
  end.

(** [sep.join(l)] *)
Definition join (sep : string) (l : list string) : string := String.concat sep l.

(** The truth value of a comparison, or the exception it raised. *)
Definition truth (c : cmp) : res bool :=
  match c with
  | CTrue => Return true
  | CFalse => Return false
  | CRaise => Raise RaisedByEq
  end.

(** [itertools.zip_longest(d, s, fillvalue=NOTFOUND)] *)
Fixpoint zip_longest (d s : list value) {struct d} : list (value * value) :=
  match d with
  | [] => map (fun e => (VNotFound, e)) s
  | a :: d' =>
      match s with
      | [] => (a, VNotFound) :: zip_longest d' []
      | e :: s' => (a, e) :: zip_longest d' s'
      end
  end.

(** [v is NOTFOUND] *)
Definition py_is_notfound (v : value) : bool :=
  match v with
  | VNotFound => true
  | _ => false
  end.

(** ** The comparison functions of validate.py *)

(** The state of [_compare_sequence] when its loop breaks. *)
Record divergence : Type := {
  index : nat;
  previous_element : value;
  actual : value;
  expected : value;
  remaining : list (value * value)   (* what is left of [zipped] *)
}.

(** The module-level names of validate.py that denote predicates on
    objects.  A name that no import and no definition of the module binds
    (and that is no builtin) has no entry. *)
Definition namespace : Type := string -> option (value -> bool).

Definition validate_globals : namespace :=
  fun name =>
    if String.eqb name "_is_nsiterable" then Some _is_nsiterable else None.

Section Validate.

(** The builtin [repr], and [type(v).__name__]. *)
Variable repr : value -> string.
Variable type_name : value -> string.

(** [_get_error(actual, expected, omit_expected)], the difference factory
    of [datatest/errors.py], which is not part of the sources at hand. *)
Variable _get_error : value -> value -> bool -> difference.

(** The [for] loop of [_compare_sequence]: [None] when it runs to its end,
    the state at the [break] otherwise. *)
Fixpoint first_divergence (zipped : list (value * value)) (index : nat)
    (previous_element : value) : res (option divergence) :=
  match zipped with
  | [] => Return None
  | (actual, expected) :: rest =>
      equal <- truth (py_eq actual expected) ;;
      if equal : bool then first_divergence rest (S index) actual
      else Return (Some {| index := index;
                           previous_element := previous_element;
                           actual := actual;
                           expected := expected;
                           remaining := rest |})
  end.

(** [message_prefix] and [message_suffix], chosen at the [break]. *)
Definition message_ends (b : divergence) : res (string * string) :=
  actual_notfound <- truth (py_eq (actual b) VNotFound) ;;
  if actual_notfound : bool then
    Return ("Data sequence is missing elements starting with index "
              ++ decimal (index b),
            "Expected " ++ repr (expected b))
  else
    expected_notfound <- truth (py_eq (expected b) VNotFound) ;;
    if expected_notfound : bool then
      Return ("Data sequence contains extra elements starting with index "
                ++ decimal (index b),
              "Found " ++ repr (actual b))
    else
      Return ("Data sequence differs starting at index " ++ decimal (index b),
              "Found " ++ repr (actual b) ++ ", expected " ++ repr (expected b)).

(** The part of [_compare_sequence] after its loop: the message of the
    [AssertionError]. *)
Definition divergence_message (b : divergence) : res string :=
  ends <- message_ends b ;;
  let message_prefix := fst ends in
  let message_suffix := snd ends in
  previous_found <- truth (py_ne (previous_element b) VNotFound) ;;
  let leading_elements :=
    ((if Nat.ltb 1 (index b) then ["..."] else [])
       ++ (if previous_found : bool then [repr (previous_element b)] else []))%list in
  actual_found <- truth (py_ne (actual b) VNotFound) ;;
  let actual_repr := if actual_found : bool then repr (actual b) else "?????" in
  let caret_underline := repeat_string "^" (String.length actual_repr) in
  let trailing_elements :=
    match remaining b with
    | [] => []
    | next_tuple :: zipped' =>
        repr (fst next_tuple)
          :: match zipped' with
             | [] => []
             | _ :: _ => ["..."]
             end
    end in
  let leading_string :=
    match leading_elements with
    | [] => ""
    | _ :: _ => join ", " leading_elements ++ ", "
    end in
  let leading_whitespace := repeat_string " " (String.length leading_string) in
  let trailing_string :=
    match trailing_elements with
    | [] => ""
    | _ :: _ => ", " ++ join ", " trailing_elements
    end in
  let sequence_string := leading_string ++ actual_repr ++ trailing_string in
  Return (message_prefix ++ ":" ++ newline ++ newline
            ++ "  " ++ sequence_string ++ newline
            ++ "  " ++ leading_whitespace ++ caret_underline ++ newline
            ++ message_suffix).

(** [_compare_sequence(data, sequence)] *)
Definition _compare_sequence (data sequence : value) : res report :=
  if isinstance_str data then
    Raise (ValueError "uncomparable types: 'str' and sequence type")
  else if negb (isinstance_Sequence data) then
    Raise (ValueError ("expected sequence type, but got "
                         ++ repr (VStr (type_name data))))
  else if negb (iterable sequence) then
    Raise (TypeError ("zip_longest argument #2 must support iteration"))
  else
    let zipped := zip_longest (items_of data) (items_of sequence) in
    found <- first_divergence zipped 0 VNotFound ;;
    match found with
    | None => Return NoDifference
    | Some b => message <- divergence_message b ;; Return (Assertion message)
    end.

(** The loop of [_compare_set], over the elements of [data]. *)
Fixpoint collect_elements (elements requirement_set matching_elements
    extra_elements : list value) : res (list value * list value) :=
  match elements with
  | [] => Return (matching_elements, extra_elements)
  | element :: rest =>
      match unhashable_part element with
      | Some u =>
          Raise (TypeError ("unhashable type: " ++ repr (VStr (type_name u))))
      | None =>
          if py_in element requirement_set then
            collect_elements rest requirement_set
              (set_add element matching_elements) extra_elements
          else
            collect_elements rest requirement_set
              matching_elements (set_add element extra_elements)
      end
  end.

(** [_compare_set(data, requirement_set)]; [requirement_set] is given by
    its members. *)
Definition _compare_set (data : value) (requirement_set : list value)
    : res (gen difference) :=
  let data :=
    if py_is_notfound data then VList []
    else if negb (_is_nsiterable data) then VList [data]
    else data in
  sets <- collect_elements (items_of data) requirement_set [] [] ;;
  let matching_elements := fst sets in
  let extra_elements := snd sets in
  let missing_elements := set_difference requirement_set matching_elements in
  let missing := gen_of_list (map Missing missing_elements) in
  let extra := gen_of_list (map Extra extra_elements) in
  Return (chain missing extra).

(** The loop of [_compare_callable]. *)
Fixpoint callable_loop (name : string) (function : list value -> outcome)
    (elements : list value) : gen difference :=
  match elements with
  | [] => GDone
  | element :: rest =>
      let called :=
        if _is_nsiterable element then function (items_of element)
        else function [element] in
      let returned_value :=
        match called with
        | Returns r => r
        | Throws => RValue (VBool false)    (* Raised errors count as False. *)
        end in
      match returned_value with
      | RValue (VBool true) => callable_loop name function rest
      | RValue (VBool false) =>
          GYield (Invalid element None) (callable_loop name function rest)
      | RDifference d => GYield d (callable_loop name function rest)
      | RValue v =>
          GRaise (TypeError (repr (VStr name) ++ " returned " ++ repr v
                               ++ ", should return True, False or DataError"))
      end
  end.

(** The elements the loops of [_compare_callable] and [_compare_regex]
    run over. *)
Definition elements_or_none (data : value) : list value :=
  if py_is_notfound data then [VNone]
  else if negb (_is_nsiterable data) then [data]
  else items_of data.

(** [_compare_callable(data, function)] *)
Definition _compare_callable (data : value) (name : string)
    (function : list value -> outcome) : gen difference :=
  callable_loop name function (elements_or_none data).

(** The loop of [_compare_regex]. *)
Fixpoint regex_loop (search : value -> search_outcome)
    (elements : list value) : gen difference :=
  match elements with
  | [] => GDone
  | element :: rest =>
      match search element with
      | Match => regex_loop search rest
      | NoMatch => GYield (Invalid element None) (regex_loop search rest)
      | SearchRaises (TypeError _) =>
          GYield (Invalid element None) (regex_loop search rest)
      | SearchRaises e => GRaise e
      end
  end.

(** [_compare_regex(data, regex)]; [regex] is given by its [search]. *)
Definition _compare_regex (data : value) (search : value -> search_outcome)
    : gen difference :=
  regex_loop search (elements_or_none data).

(** The loop of [_compare_other]. *)
Fixpoint other_loop (other : value) (elements : list value)
    : gen difference :=
  match elements with
  | [] => GDone
  | element :: rest =>
      match py_ne element other with
      | CTrue => GYield (_get_error element other true) (other_loop other rest)
      | CFalse => other_loop other rest
      | CRaise => GYield (_get_error element other true) (other_loop other rest)
      end
  end.

(** [_compare_other(data, other)] *)
Definition _compare_other (data other : value) : gen difference :=
  if iterable data then other_loop other (items_of data)
  else GRaise (TypeError (repr (VStr (type_name data))
                            ++ " object is not iterable")).

(** [next(result, None)] followed by the test of [first_element]: the
    report of a generator of differences, which are all true objects. *)
Definition first_or_none (is_single_element : bool) (result : gen difference)
    : res report :=
  match result with
  | GDone => Return NoDifference
  | GYield first_element rest =>
      if is_single_element then Return (Single first_element)
      else Return (Lazy (chain (gen_of_list [first_element]) rest))
  | GRaise e => Raise e
  end.

(** [_do_comparison(data, requirement)] *)
Definition _do_comparison (data : value) (requirement : requirement)
    : res report :=
  match requirement with
  | Obj (VTuple _ as sequence) | Obj (VList _ as sequence) =>
      _compare_sequence data sequence
  | Obj (VSet members) =>
      result <- _compare_set data members ;;
      first_or_none false result
  | _ =>
      let is_single_element :=
        negb (_is_nsiterable data) || isinstance_Mapping data in
      let data := if is_single_element then VList [data] else data in
      let result :=
        match requirement with
        | Callable name function => _compare_callable data name function
        | Pattern search => _compare_regex data search
        | Obj other => _compare_other data other
        end in
      first_or_none is_single_element result
  end.

(** [list(result)] when [result] is a non-string iterable other than a
    mapping, [result] itself otherwise. *)
Definition materialize (r : report) : res report :=
  if report_is_nsiterable r && negb (report_is_Mapping r) then
    match r with
    | Lazy g => l <- to_list g ;; Return (Materialized l)
    | _ => Return r
    end
  else Return r.

(** [mapping.get(key, NOTFOUND)] *)
Fixpoint mapping_get (mapping : list (value * requirement)) (key : value)
    : requirement :=
  match mapping with
  | [] => Obj VNotFound
  | (k, r) :: mapping' =>
      if is_true (py_eq key k) then r else mapping_get mapping' key
  end.

(** [key, actual = item] *)
Definition unpack_pair (item : value) : res (value * value) :=
  if iterable item then
    match items_of item with
    | [key; actual] => Return (key, actual)
    | [] | [_] => Raise (ValueError "not enough values to unpack (expected 2)")
    | _ => Raise (ValueError "too many values to unpack (expected 2)")
    end
  else Raise (TypeError ("cannot unpack non-iterable "
                           ++ type_name item ++ " object")).

(** The second loop of [_compare_mapping], over the items of [mapping]. *)
Fixpoint requirement_loop (data_keys : list value)
    (mapping_items : list (value * requirement)) : gen (value * report) :=
  match mapping_items with
  | [] => GDone
  | (key, expected) :: rest =>
      if negb (py_in key data_keys) then
        match (result <- _do_comparison VNotFound expected ;;
               materialize result) with
        | Return result => GYield (key, result) (requirement_loop data_keys rest)
        | Raise e => GRaise e
        end
      else requirement_loop data_keys rest
  end.

(** The first loop of [_compare_mapping], over [data_items], followed by
    the second one. *)
Fixpoint data_loop (mapping : list (value * requirement))
    (data_keys : list value) (data_items : list value)
    : gen (value * report) :=
  match data_items with
  | [] => requirement_loop data_keys mapping
  | item :: rest =>
      match unpack_pair item with
      | Raise e => GRaise e
      | Return (key, actual) =>
          match unhashable_part key with
          | Some u =>
              GRaise (TypeError ("unhashable type: "
                                   ++ repr (VStr (type_name u))))
          | None =>
              let data_keys := set_add key data_keys in
              let expected := mapping_get mapping key in
              match _do_comparison actual expected with
              | Raise e => GRaise e
              | Return result =>
                  if truthy result then
                    match materialize result with
                    | Raise e => GRaise e
                    | Return result =>
                        GYield (key, result) (data_loop mapping data_keys rest)
                    end
                  else data_loop mapping data_keys rest
              end
          end
      end
  end.

(** [_compare_mapping(data, mapping)], the names it looks up at module
    level being resolved in [globals]. *)
Definition _compare_mapping_in (globals : namespace) (data : value)
    (mapping : list (value * requirement)) : gen (value * report) :=
  let data_items :=
    if isinstance_Mapping data then Return (dict_items data)
    else
      match globals "_is_collection_of_items" with
      | None =>
          Raise (NameError "name '_is_collection_of_items' is not defined")
      | Some _is_collection_of_items =>
          if _is_collection_of_items data then
            if iterable data then Return (items_of data)
            else Raise (TypeError (repr (VStr (type_name data))
                                     ++ " object is not iterable"))
          else
            Raise (TypeError
                     "data must be mapping or iterable of key-value items")
      end in
  match data_items with
  | Raise e => GRaise e
  | Return data_items => data_loop mapping [] data_items
  end.

(** [_compare_mapping(data, mapping)] as validate.py runs it. *)
Definition _compare_mapping (data : value)
    (mapping : list (value * requirement)) : gen (value * report) :=
  _compare_mapping_in validate_globals data mapping.

(** [_do_mapping_comparison(data, mapping)] *)
Definition _do_mapping_comparison (data : value)
    (mapping : list (value * requirement))
    : res (option (gen (value * report))) :=
  match _compare_mapping data mapping with
  | GDone => Return None
  | GYield first_element rest =>
      Return (Some (chain (gen_of_list [first_element]) rest))
  | GRaise e => Raise e
  end.

End Validate.

(** ** Instances for concrete runs *)

(** [str(z)] *)
Definition decimal_Z (z : Z) : string :=
  match z with
  | Z0 => "0"
  | Zpos _ => decimal (Z.to_nat z)
  | Zneg _ => "-" ++ decimal (Z.to_nat (Z.opp z))
  end.

(** [repr] on a part of the fragment: [None], booleans, integers, strings
    without quotes, backslashes or control characters, and containers of
    these.  Outside that part the string only names the kind of object. *)
Fixpoint repr_basic (v : value) : string :=
  match v with
  | VNone => "None"
  | VNotFound => "NOTFOUND"
  | VBool true => "True"
  | VBool false => "False"
  | VInt z => decimal_Z z
  | VFloat _ => "<float>"
  | VNaN => "nan"
  | VStr s => "'" ++ s ++ "'"
  | VTuple [x] => "(" ++ repr_basic x ++ ",)"
  | VTuple l => "(" ++ join ", " (map repr_basic l) ++ ")"
  | VList l => "[" ++ join ", " (map repr_basic l) ++ "]"
  | VSet [] => "set()"
  | VSet l => "{" ++ join ", " (map repr_basic l) ++ "}"
  | VDict entries =>
      "{" ++ join ", "
               (map (fun kv => match kv with
                               | (k, x) => repr_basic k ++ ": " ++ repr_basic x
                               end) entries) ++ "}"
  | VObject _ => "<object>"
  end.

(** [type(v).__name__]; the class of the sentinel and the class of a
    [VObject] are named after what they model. *)
Definition type_name_basic (v : value) : string :=
  match v with
  | VNone => "NoneType"
  | VNotFound => "NOTFOUND"
  | VBool _ => "bool"
  | VInt _ => "int"
  | VFloat _ | VNaN => "float"
  | VStr _ => "str"
  | VTuple _ => "tuple"
  | VList _ => "list"
  | VSet _ => "set"
  | VDict _ => "dict"
  | VObject _ => "BadClass"
  end.

(** Modelled from the spec: rules 2 to 4 of the difference factory (§4.1),
    which classify two operands that are not both numeric; it stands for
    [_get_error] of [datatest/errors.py] in concrete runs.  Rule 1 (two
    numbers, or a number against [None] or the sentinel, give a
    [Deviation]) is not part of it, and no run below applies it to such
    operands. *)
Definition nonnumeric_difference (actual expected : value)
    (omit_expected : bool) : difference :=
  if py_is_notfound actual then Missing expected
  else if py_is_notfound expected then Extra actual
  else if omit_expected then Invalid actual None
  else Invalid actual (Some expected).

(** ** The constructor of Deviation *)

(** The values the tests call empty: [None], [''] and NaN. *)
Definition is_empty (v : value) : bool :=
  match v with
  | VNone | VNaN => true
  | VStr s => String.eqb s ""
  | _ => false
  end.

(** The values the tests call zero: [0], [0.0] and [False]. *)
Definition is_zero (v : value) : bool :=
  match num_of v with
  | Some q => Qeq_bool q 0
  | None => false
  end.

(** Modelled from the spec: the constructor of [Deviation], which lives in
    [datatest/errors.py] and is not part of the sources at hand.  The
    first rejection is the invariant of §3 (the diff must not be
    zero/False when a non-empty expected baseline is given); the second is
    what [test_empty_value_handling] of [tests/test_errors.py] adds (an
    empty diff against a non-zero baseline is rejected).  Every call made
    in [TestDeviation] has the outcome given here.  The text of the
    [ValueError] is not specified. *)
Definition new_Deviation (diff expected : value) : res difference :=
  if is_zero diff && negb (is_empty expected) then Raise (ValueError "")
  else if is_empty diff && negb (is_empty expected || is_zero expected) then
    Raise (ValueError "")
  else Return (Deviation diff expected).

(** ** Notions used in the statements *)

(** Objects on which [==] is a total equivalence: [None], the sentinel,
    numbers other than NaN, strings, and tuples of such objects. *)
Fixpoint plain (v : value) : bool :=
  match v with
  | VNone | VNotFound | VBool _ | VInt _ | VFloat _ | VStr _ => true
  | VTuple l => forallb plain l
  | _ => false
  end.

(** The item-wise comparison inside [py_eq]. *)
Definition items_eq : list value -> list value -> cmp :=
  fix items (l m : list value) : cmp :=
    match l, m with
    | x :: l', y :: m' => cmp_and (py_eq x y) (items l' m')
    | _, _ => CTrue
    end.

(** No two members of [l] are equal. *)
Fixpoint distinct (l : list value) : bool :=
  match l with
  | [] => true
  | x :: l' => negb (py_in x l') && distinct l'
  end.

(** The wording with which the message of [_compare_sequence] begins. *)
Definition heading (actual expected : value) (index : nat) : string :=
  (if py_is_notfound actual then
     "Data sequence is missing elements starting with index "
   else if py_is_notfound expected then
     "Data sequence contains extra elements starting with index "
   else "Data sequence differs starting at index ") ++ decimal index.

(** Every pair of [pairs] is a pair of equal objects. *)
Definition all_equal (pairs : list (value * value)) : Prop :=
  forall p, In p pairs -> py_eq (fst p) (snd p) = CTrue.

(** A list of strings. *)
Definition strings (l : list string) : value := VList (map VStr l).

(** The call [_compare_callable] makes for one element. *)
Definition call (function : list value -> outcome) (element : value)
    : outcome :=
  if _is_nsiterable element then function (items_of element)
  else function [element].




(** [lambda x: x.isdigit()] on the strings of the tests: it raises on an
    object that is no string. *)
Definition isdigit (arguments : list value) : outcome :=
  match arguments with
  | [VStr s] =>
      Returns
        (RValue
           (VBool
              (negb (String.eqb s "")
               && forallb
                    (fun c => Nat.leb 48 (nat_of_ascii c)
                              && Nat.leb (nat_of_ascii c) 57)
                    (list_ascii_of_string s))))
  | _ => Throws
  end.

(** [re.compile('[a-z][0-9]+').search] on the elements of the tests: a
    letter followed by a digit somewhere in a string; a type error on an
    object that is no string. *)
Definition letter_digit_search (element : value) : search_outcome :=
  match element with
  | VStr s =>
      (fix scan (l : list ascii) : search_outcome :=
         match l with
         | c :: ((d :: _) as l') =>
             if Nat.leb 97 (nat_of_ascii c) && Nat.leb (nat_of_ascii c) 122
                && Nat.leb 48 (nat_of_ascii d) && Nat.leb (nat_of_ascii d) 57
             then Match else scan l'
         | _ => NoMatch
         end) (list_ascii_of_string s)
  | _ => SearchRaises (TypeError "expected string or bytes-like object")
  end.

(** [lambda x: x is None] *)
Definition is_none (arguments : list value) : outcome :=
  match arguments with
  | [VNone] => Returns (RValue (VBool true))
  | _ => Returns (RValue (VBool false))
  end.

(** * Properties *)



(** ** Equality on hashable scalars and tuples of them *)

Lemma py_eq_tuple (l m : list value) :
  py_eq (VTuple l) (VTuple m)
  = if Nat.eqb (List.length l) (List.length m) then items_eq l m else CFalse.
Proof. reflexivity. Qed.

Section ValueInduction.

Variable P : value -> Prop.
Hypothesis P_tuple : forall l, Forall P l -> P (VTuple l).
Hypothesis P_other : forall v, (forall l, v <> VTuple l) -> P v.

Lemma value_tuple_ind : forall v, P v.
Proof.
  fix IH 1. intros v.
  destruct v as [ | | b | z | q | | s | l | l | l | l | n ];
    try (apply P_other; intros l' H; discriminate H).
  apply P_tuple. induction l as [ | x l' IHl' ]; constructor.
  - apply IH.
  - exact IHl'.
Qed.

End ValueInduction.

Lemma Qeq_bool_comm (p q : Q) : Qeq_bool p q = Qeq_bool q p.
Proof.
  destruct (Qeq_bool p q) eqn:E, (Qeq_bool q p) eqn:F; try reflexivity.
  - apply Qeq_bool_sym in E. congruence.
  - apply Qeq_bool_sym in F. congruence.
Qed.

Lemma py_eq_plain_total (a : value) :
  forall b, plain a = true -> plain b = true -> py_eq a b <> CRaise.
Proof.
  induction a using value_tuple_ind.
  - intros b Ha Hb. destruct b; try discriminate Hb; try (simpl; discriminate).
    rewrite py_eq_tuple. destruct (Nat.eqb _ _); [ | discriminate].
    simpl in Ha, Hb. revert items Hb.
    induction H as [ | x l Hx Hl IH ]; intros m Hm.
    + simpl. destruct m; discriminate.
    + destruct m as [ | y m ]; [simpl; discriminate | ].
      simpl in Ha, Hm. apply andb_true_iff in Ha, Hm.
      destruct Ha as [Ha1 Ha2], Hm as [Hm1 Hm2].
      change (items_eq (x :: l) (y :: m))
        with (cmp_and (py_eq x y) (items_eq l m)).
      specialize (Hx y Ha1 Hm1). specialize (IH Ha2 m Hm2).
      destruct (py_eq x y); simpl; congruence.
  - intros b Ha Hb.
    destruct a; try discriminate Ha; try (exfalso; eapply H; reflexivity);
      destruct b; try discriminate Hb; simpl;
      try discriminate;
      try (match goal with |- context [Qeq_bool ?p ?q] => destruct (Qeq_bool p q) end; discriminate);
      try (match goal with |- context [String.eqb ?p ?q] => destruct (String.eqb p q) end; discriminate).
Qed.

Lemma py_eq_plain_sym (a : value) :
  forall b, plain a = true -> plain b = true -> py_eq a b = py_eq b a.
Proof.
  induction a using value_tuple_ind.
  - intros b Ha Hb. destruct b; try discriminate Hb; try reflexivity.
    rewrite !py_eq_tuple, (Nat.eqb_sym (List.length items)).
    destruct (Nat.eqb _ _); [ | reflexivity].
    simpl in Ha, Hb. revert items Hb.
    induction H as [ | x l Hx Hl IH ]; intros m Hm.
    + destruct m; reflexivity.
    + destruct m as [ | y m ]; [reflexivity | ].
      simpl in Ha, Hm. apply andb_true_iff in Ha, Hm.
      destruct Ha as [Ha1 Ha2], Hm as [Hm1 Hm2].
      change (cmp_and (py_eq x y) (items_eq l m)
              = cmp_and (py_eq y x) (items_eq m l)).
      rewrite (Hx y Ha1 Hm1), (IH Ha2 m Hm2). reflexivity.
  - intros b Ha Hb.
    destruct a; try discriminate Ha; try (exfalso; eapply H; reflexivity);
      destruct b; try discriminate Hb; simpl; try reflexivity;
      try apply (f_equal cmp_of_bool);
      try apply Qeq_bool_comm; try apply String.eqb_sym.
Qed.

Lemma py_eq_plain_refl (a : value) : plain a = true -> py_eq a a = CTrue.
Proof.
  induction a using value_tuple_ind.
  - intros Ha. rewrite py_eq_tuple, Nat.eqb_refl. simpl in Ha.
    induction H as [ | x l Hx Hl IH ]; [reflexivity | ].
    simpl in Ha. apply andb_true_iff in Ha. destruct Ha as [Ha1 Ha2].
    change (cmp_and (py_eq x x) (items_eq l l) = CTrue).
    rewrite (Hx Ha1). simpl. exact (IH Ha2).
  - intros Ha.
    destruct a; try discriminate Ha; try (exfalso; eapply H; reflexivity);
      simpl; try reflexivity;
      try (rewrite Qeq_bool_refl; reflexivity);
      try (rewrite String.eqb_refl; reflexivity).
Qed.

Lemma cmp_of_bool_true (b : bool) : cmp_of_bool b = CTrue <-> b = true.
Proof. destruct b; simpl; split; congruence. Qed.

Lemma py_eq_plain_trans (a : value) :
  forall b c, plain a = true -> plain b = true -> plain c = true ->
              py_eq a b = CTrue -> py_eq b c = CTrue -> py_eq a c = CTrue.
Proof.
  induction a using value_tuple_ind.
  - intros b c Ha Hb Hc Hab Hbc.
    destruct b; try discriminate Hb; try discriminate Hab.
    destruct c; try discriminate Hc; try discriminate Hbc.
    rewrite py_eq_tuple in *.
    destruct (Nat.eqb (List.length l) (List.length items)) eqn:E1;
      [ | discriminate].
    destruct (Nat.eqb (List.length items) (List.length items0)) eqn:E2;
      [ | discriminate].
    apply Nat.eqb_eq in E1, E2.
    replace (Nat.eqb (List.length l) (List.length items0)) with true
      by (symmetry; apply Nat.eqb_eq; congruence).
    simpl in Ha, Hb, Hc.
    revert items items0 E1 E2 Hb Hc Hab Hbc.
    induction H as [ | x l Hx Hl IH ]; intros m n E1 E2 Hm Hn Hab Hbc.
    + reflexivity.
    + destruct m as [ | y m ]; [discriminate E1 | ].
      destruct n as [ | z n ]; [discriminate E2 | ].
      simpl in Ha, Hm, Hn, E1, E2. apply andb_true_iff in Ha, Hm, Hn.
      destruct Ha as [Ha1 Ha2], Hm as [Hm1 Hm2], Hn as [Hn1 Hn2].
      change (cmp_and (py_eq x y) (items_eq l m) = CTrue) in Hab.
      change (cmp_and (py_eq y z) (items_eq m n) = CTrue) in Hbc.
      change (cmp_and (py_eq x z) (items_eq l n) = CTrue).
      destruct (py_eq x y) eqn:Exy; try discriminate Hab.
      destruct (py_eq y z) eqn:Eyz; try discriminate Hbc.
      rewrite (Hx y z Ha1 Hm1 Hn1 Exy Eyz). simpl in *.
      apply (IH Ha2 m n); congruence.
  - intros b c Ha Hb Hc Hab Hbc.
    destruct a; try discriminate Ha; try (exfalso; eapply H; reflexivity);
      destruct b; try discriminate Hb; try discriminate Hab;
      destruct c; try discriminate Hc; try discriminate Hbc;
      simpl in *; try reflexivity;
      rewrite cmp_of_bool_true in *;
      try (eapply Qeq_bool_trans; eassumption).
    apply String.eqb_eq in Hab, Hbc. apply String.eqb_eq. congruence.
Qed.

(** ** Sets of plain objects *)

Lemma py_in_cons (x a : value) (s : list value) :
  py_in x (a :: s) = is_true (py_eq x a) || py_in x s.
Proof. reflexivity. Qed.

Lemma py_in_app (x : value) (s t : list value) :
  py_in x (s ++ t)%list = py_in x s || py_in x t.
Proof. unfold py_in. apply existsb_app. Qed.

Lemma is_true_py_eq_compat (x y a : value) :
  plain x = true -> plain y = true -> plain a = true ->
  py_eq x y = CTrue -> is_true (py_eq x a) = is_true (py_eq y a).
Proof.
  intros Hx Hy Ha Hxy.
  destruct (py_eq x a) eqn:Exa, (py_eq y a) eqn:Eya; try reflexivity; exfalso.
  - rewrite py_eq_plain_sym in Hxy by assumption.
    rewrite (py_eq_plain_trans y x a) in Eya by assumption. discriminate.
  - exact (py_eq_plain_total y a Hy Ha Eya).
  - rewrite (py_eq_plain_trans x y a) in Exa by assumption. discriminate.
  - exact (py_eq_plain_total x a Hx Ha Exa).
Qed.

Lemma py_in_compat (x y : value) (s : list value) :
  plain x = true -> plain y = true -> forallb plain s = true ->
  py_eq x y = CTrue -> py_in x s = py_in y s.
Proof.
  intros Hx Hy Hs Hxy. induction s as [ | a s IH ]; [reflexivity | ].
  simpl in Hs. apply andb_true_iff in Hs. destruct Hs as [Ha Hs].
  simpl. rewrite (is_true_py_eq_compat x y a), IH by assumption. reflexivity.
Qed.

Lemma is_true_py_eq_sym (x y : value) :
  plain x = true -> plain y = true ->
  is_true (py_eq x y) = is_true (py_eq y x).
Proof. intros Hx Hy. rewrite py_eq_plain_sym by assumption. reflexivity. Qed.

Lemma plain_set_add (a : value) (s : list value) :
  plain a = true -> forallb plain s = true ->
  forallb plain (set_add a s) = true.
Proof.
  intros Ha Hs. unfold set_add. destruct (py_in a s); [exact Hs | ].
  rewrite forallb_app, Hs. simpl. rewrite Ha. reflexivity.
Qed.

Lemma py_in_set_add (x a : value) (s : list value) :
  plain x = true -> plain a = true -> forallb plain s = true ->
  py_in x (set_add a s) = py_in x s || is_true (py_eq x a).
Proof.
  intros Hx Ha Hs. unfold set_add. destruct (py_in a s) eqn:E.
  - destruct (is_true (py_eq x a)) eqn:Exa.
    + rewrite (py_in_compat x a s), E by
        (try assumption; destruct (py_eq x a); try discriminate; reflexivity).
      reflexivity.
    + rewrite orb_false_r. reflexivity.
  - rewrite py_in_app. simpl. rewrite orb_false_r. reflexivity.
Qed.

Lemma distinct_app_one (a : value) (s : list value) :
  plain a = true -> forallb plain s = true ->
  py_in a s = false -> distinct s = true -> distinct (s ++ [a])%list = true.
Proof.
  intros Ha Hs Hin Hd. induction s as [ | y s IH ]; [reflexivity | ].
  simpl in *. apply andb_true_iff in Hs, Hd.
  destruct Hs as [Hy Hs], Hd as [Hd1 Hd2].
  apply orb_false_iff in Hin. destruct Hin as [Hay Hin].
  rewrite py_in_app. simpl. rewrite orb_false_r.
  rewrite (is_true_py_eq_sym y a), Hay, orb_false_r by assumption.
  rewrite Hd1. simpl. apply IH; assumption.
Qed.

Lemma distinct_set_add (a : value) (s : list value) :
  plain a = true -> forallb plain s = true ->
  distinct s = true -> distinct (set_add a s) = true.
Proof.
  intros Ha Hs Hd. unfold set_add. destruct (py_in a s) eqn:E.
  - exact Hd.
  - apply distinct_app_one; assumption.
Qed.

Lemma incl_set_add (a : value) (s t : list value) :
  incl s t -> In a t -> incl (set_add a s) t.
Proof.
  intros Hs Ha. unfold set_add. destruct (py_in a s); [exact Hs | ].
  apply incl_app; [exact Hs | ]. intros x [Hx | []]. subst. exact Ha.
Qed.

Lemma plain_unhashable_part (v : value) :
  plain v = true -> unhashable_part v = None.
Proof.
  induction v using value_tuple_ind.
  - intros Hv. simpl in Hv. simpl.
    induction H as [ | x l Hx Hl IH ]; [reflexivity | ].
    simpl in Hv. apply andb_true_iff in Hv. destruct Hv as [Hv1 Hv2].
    rewrite (Hx Hv1). exact (IH Hv2).
  - intros Hv. destruct v; try discriminate Hv; try reflexivity.
    exfalso. eapply H. reflexivity.
Qed.

Ltac py_in_cases :=
  repeat match goal with
         | |- context [py_in ?x ?s] => destruct (py_in x s)
         end;
  reflexivity.

Section SetComparison.

Variable repr : value -> string.
Variable type_name : value -> string.

Lemma collect_elements_spec (requirement_set : list value) :
  forallb plain requirement_set = true ->
  forall elements matching extra,
    forallb plain elements = true ->
    forallb plain matching = true -> forallb plain extra = true ->
    exists matching' extra',
      collect_elements repr type_name elements requirement_set matching extra
      = Return (matching', extra')
      /\ forallb plain matching' = true /\ forallb plain extra' = true
      /\ (distinct matching = true -> distinct matching' = true)
      /\ (distinct extra = true -> distinct extra' = true)
      /\ incl matching' (matching ++ elements)
      /\ incl extra' (extra ++ elements)
      /\ (forall x, plain x = true ->
            py_in x matching'
            = py_in x matching
              || (py_in x elements && py_in x requirement_set))
      /\ (forall x, plain x = true ->
            py_in x extra'
            = py_in x extra
              || (py_in x elements && negb (py_in x requirement_set))).
Proof.
  intros Hreq elements.
  induction elements as [ | a elements IH ]; intros matching extra He Hm Hx.
  - exists matching, extra. simpl. rewrite !app_nil_r.
    repeat split; auto using incl_refl;
      intros; simpl; rewrite orb_false_r; reflexivity.
  - simpl in He. apply andb_true_iff in He. destruct He as [Ha He].
    cbn [collect_elements]. rewrite (plain_unhashable_part a Ha).
    destruct (py_in a requirement_set) eqn:Ein.
    + destruct (IH (set_add a matching) extra He
                  (plain_set_add a matching Ha Hm) Hx)
        as (m' & e' & Heq & Hpm & Hpe & Hdm & Hde & Him & Hie & Hinm & Hine).
      exists m', e'. repeat split; try assumption.
      * intros Hd. apply Hdm, distinct_set_add; assumption.
      * eapply incl_tran; [exact Him | ].
        apply incl_app.
        -- apply incl_set_add.
           ++ apply incl_appl, incl_refl.
           ++ apply in_or_app. right. left. reflexivity.
        -- apply incl_appr, incl_tl, incl_refl.
      * eapply incl_tran; [exact Hie | ].
        apply incl_app; [apply incl_appl, incl_refl | ].
        apply incl_appr, incl_tl, incl_refl.
      * intros x Hpx. rewrite (Hinm x Hpx), py_in_cons, py_in_set_add by assumption.
        destruct (is_true (py_eq x a)) eqn:Exa; simpl.
        -- rewrite (py_in_compat x a requirement_set), Ein by
             (try assumption; destruct (py_eq x a); try discriminate;
              reflexivity).
           py_in_cases.
        -- py_in_cases.
      * intros x Hpx. rewrite (Hine x Hpx), py_in_cons.
        destruct (is_true (py_eq x a)) eqn:Exa; simpl; [ | py_in_cases].
        rewrite (py_in_compat x a requirement_set), Ein by
          (try assumption; destruct (py_eq x a); try discriminate;
           reflexivity).
        py_in_cases.
    + destruct (IH matching (set_add a extra) He Hm
                  (plain_set_add a extra Ha Hx))
        as (m' & e' & Heq & Hpm & Hpe & Hdm & Hde & Him & Hie & Hinm & Hine).
      exists m', e'. repeat split; try assumption.
      * intros Hd. apply Hde, distinct_set_add; assumption.
      * eapply incl_tran; [exact Him | ].
        apply incl_app; [apply incl_appl, incl_refl | ].
        apply incl_appr, incl_tl, incl_refl.
      * eapply incl_tran; [exact Hie | ].
        apply incl_app.
        -- apply incl_set_add.
           ++ apply incl_appl, incl_refl.
           ++ apply in_or_app. right. left. reflexivity.
        -- apply incl_appr, incl_tl, incl_refl.
      * intros x Hpx. rewrite (Hinm x Hpx), py_in_cons.
        destruct (is_true (py_eq x a)) eqn:Exa; simpl; [ | py_in_cases].
        rewrite (py_in_compat x a requirement_set), Ein by
          (try assumption; destruct (py_eq x a); try discriminate;
           reflexivity).
        py_in_cases.
      * intros x Hpx. rewrite (Hine x Hpx), py_in_cons, py_in_set_add by assumption.
        destruct (is_true (py_eq x a)) eqn:Exa; simpl.
        -- rewrite (py_in_compat x a requirement_set), Ein by
             (try assumption; destruct (py_eq x a); try discriminate;
              reflexivity).
           py_in_cases.
        -- py_in_cases.
Qed.

End SetComparison.

Lemma py_in_set_difference (x : value) (s t : list value) :
  plain x = true -> forallb plain s = true -> forallb plain t = true ->
  py_in x (set_difference s t) = py_in x s && negb (py_in x t).
Proof.
  intros Hx Hs Ht. induction s as [ | y s IH ]; [reflexivity | ].
  simpl in Hs. apply andb_true_iff in Hs. destruct Hs as [Hy Hs].
  simpl. destruct (py_in y t) eqn:Eyt; simpl.
  - rewrite (IH Hs). destruct (is_true (py_eq x y)) eqn:Exy; simpl;
      [ | reflexivity].
    rewrite (py_in_compat x y t), Eyt by
      (try assumption; destruct (py_eq x y); try discriminate; reflexivity).
    rewrite andb_false_r. reflexivity.
  - rewrite (IH Hs). destruct (is_true (py_eq x y)) eqn:Exy; simpl;
      [ | reflexivity].
    rewrite (py_in_compat x y t), Eyt by
      (try assumption; destruct (py_eq x y); try discriminate; reflexivity).
    reflexivity.
Qed.

Lemma py_in_filter_false (x : value) (f : value -> bool) (s : list value) :
  py_in x s = false -> py_in x (filter f s) = false.
Proof.
  intros H. induction s as [ | y s IH ]; [reflexivity | ].
  simpl in H. apply orb_false_iff in H. destruct H as [H1 H2].
  simpl. destruct (f y); simpl; [rewrite H1 | ]; auto.
Qed.

Lemma distinct_filter (f : value -> bool) (s : list value) :
  distinct s = true -> distinct (filter f s) = true.
Proof.
  induction s as [ | y s IH ]; [reflexivity | ].
  simpl. intros H. apply andb_true_iff in H. destruct H as [H1 H2].
  destruct (f y); simpl; [ | auto].
  apply negb_true_iff in H1. rewrite (py_in_filter_false y f s H1). simpl. auto.
Qed.

(** Claim C8.  [_compare_set] treats the sentinel as an empty data set and
    a non-iterable scalar as a one-element set.  For iterable data whose
    elements are hashable scalars or tuples of them, and a requirement set
    of such objects, it returns the [Missing] differences followed by the
    [Extra] differences: one [Missing] for each member of the requirement
    set that equals no data element, one [Extra] for each distinct data
    element that equals no member of the requirement set, and no value
    reported twice. *)
Theorem compare_set_missing_then_extra (repr type_name : value -> string) :
  (forall requirement_set,
     _compare_set repr type_name VNotFound requirement_set
     = _compare_set repr type_name (VSet []) requirement_set)
  /\ (forall data requirement_set,
        _is_nsiterable data = false -> py_is_notfound data = false ->
        _compare_set repr type_name data requirement_set
        = _compare_set repr type_name (VSet [data]) requirement_set)
  /\ (forall data requirement_set,
        _is_nsiterable data = true ->
        forallb plain (items_of data) = true ->
        forallb plain requirement_set = true ->
        distinct requirement_set = true ->
        exists missing_elements extra_elements,
          _compare_set repr type_name data requirement_set
          = Return (chain (gen_of_list (map Missing missing_elements))
                          (gen_of_list (map Extra extra_elements)))
          /\ distinct missing_elements = true
          /\ distinct extra_elements = true
          /\ incl missing_elements requirement_set
          /\ incl extra_elements (items_of data)
          /\ (forall x, plain x = true ->
                py_in x missing_elements
                = py_in x requirement_set && negb (py_in x (items_of data)))
          /\ (forall x, plain x = true ->
                py_in x extra_elements
                = py_in x (items_of data) && negb (py_in x requirement_set))).
Proof.
  split; [ | split].
  - intros requirement_set. reflexivity.
  - intros data requirement_set Hns Hnf. unfold _compare_set.
    rewrite Hnf, Hns. reflexivity.
  - intros data requirement_set Hns Hd Hreq Hdist.
    assert (Hnf : py_is_notfound data = false)
      by (destruct data; try discriminate Hns; reflexivity).
    unfold _compare_set. rewrite Hnf, Hns. cbn [negb].
    destruct (collect_elements_spec repr type_name requirement_set Hreq
                (items_of data) [] [] Hd eq_refl eq_refl)
      as (m & e & Heq & Hpm & Hpe & Hdm & Hde & Him & Hie & Hinm & Hine).
    rewrite Heq. cbn [bind fst snd].
    exists (set_difference requirement_set m), e.
    split; [reflexivity | ].
    split; [apply distinct_filter; exact Hdist | ].
    split; [apply Hde; reflexivity | ].
    split; [apply incl_filter | ].
    split; [exact Hie | ].
    split.
    + intros x Hx. rewrite py_in_set_difference, (Hinm x Hx) by assumption.
      cbn [py_in existsb orb]. py_in_cases.
    + intros x Hx. rewrite (Hine x Hx). reflexivity.
Qed.

Lemma compare_set_missing_then_extra_witness :
  exists missing_elements extra_elements,
    _compare_set repr_basic type_name_basic
      (VList [VStr "a"; VStr "c"; VStr "x"; VStr "x"])
      [VStr "a"; VStr "b"; VStr "c"]
    = Return (chain (gen_of_list (map Missing missing_elements))
                    (gen_of_list (map Extra extra_elements)))
    /\ distinct missing_elements = true
    /\ distinct extra_elements = true
    /\ incl missing_elements [VStr "a"; VStr "b"; VStr "c"]
    /\ incl extra_elements [VStr "a"; VStr "c"; VStr "x"; VStr "x"]
    /\ (forall x, plain x = true ->
          py_in x missing_elements
          = py_in x [VStr "a"; VStr "b"; VStr "c"]
            && negb (py_in x [VStr "a"; VStr "c"; VStr "x"; VStr "x"]))
    /\ (forall x, plain x = true ->
          py_in x extra_elements
          = py_in x [VStr "a"; VStr "c"; VStr "x"; VStr "x"]
            && negb (py_in x [VStr "a"; VStr "b"; VStr "c"])).
Proof.
  apply (proj2 (proj2 (compare_set_missing_then_extra
                         repr_basic type_name_basic))
           (VList [VStr "a"; VStr "c"; VStr "x"; VStr "x"])
           [VStr "a"; VStr "b"; VStr "c"]);
    reflexivity.
Defined.

(** Claim C10.  In [_compare_set] a string is one element: the result for
    the string [s] is the result for the one-element set of [s], that is
    a [Missing] for every member of the requirement set other than [s]
    and an [Extra] for [s] when it is no member; the characters of [s] are
    never compared.  The string 'a' against {'a', 'b', 'c'} gives exactly
    Missing('b') and Missing('c'); the string 'ab' against {'a', 'b'} gives
    Missing('a'), Missing('b') and Extra('ab'). *)
Theorem compare_set_string_is_one_element (repr type_name : value -> string) :
  (forall s requirement_set,
     _compare_set repr type_name (VStr s) requirement_set
     = _compare_set repr type_name (VSet [VStr s]) requirement_set)
  /\ (forall s requirement_set,
        _compare_set repr type_name (VStr s) requirement_set
        = Return
            (chain
               (gen_of_list
                  (map Missing
                     (set_difference requirement_set
                        (if py_in (VStr s) requirement_set
                         then [VStr s] else []))))
               (gen_of_list
                  (map Extra
                     (if py_in (VStr s) requirement_set
                      then [] else [VStr s])))))
  /\ _compare_set repr type_name (VStr "a") [VStr "a"; VStr "b"; VStr "c"]
     = Return (gen_of_list [Missing (VStr "b"); Missing (VStr "c")])
  /\ _compare_set repr type_name (VStr "ab") [VStr "a"; VStr "b"]
     = Return (gen_of_list [Missing (VStr "a"); Missing (VStr "b");
                            Extra (VStr "ab")]).
Proof.
  split; [ | split; [ | split]].
  - intros s requirement_set. reflexivity.
  - intros s requirement_set. unfold _compare_set.
    cbn [py_is_notfound _is_nsiterable negb items_of collect_elements
         unhashable_part].
    destruct (py_in (VStr s) requirement_set); reflexivity.
  - reflexivity.
  - reflexivity.
Qed.

(** ** Sequence comparison *)

Lemma prefix_app (p s : string) : String.prefix p (p ++ s) = true.
Proof.
  induction p as [ | c p IH ]; simpl.
  - destruct s; reflexivity.
  - destruct (ascii_dec c c); [exact IH | congruence].
Qed.

Lemma py_eq_notfound (a b : value) :
  py_eq a b <> CRaise ->
  py_eq a VNotFound = cmp_of_bool (py_is_notfound a)
  /\ py_eq b VNotFound = cmp_of_bool (py_is_notfound b).
Proof.
  intros H. destruct a; try (exfalso; apply H; reflexivity);
    (destruct b; [ .. | exfalso; apply H; reflexivity ]);
    split; reflexivity.
Qed.

Lemma last_cons_default (l : list value) :
  forall x d, last (x :: l) d = last l x.
Proof.
  induction l as [ | z l IH ]; intros x d; [reflexivity | ].
  change (last (x :: z :: l) d) with (last (z :: l) d).
  rewrite !IH. reflexivity.
Qed.

Lemma first_divergence_none (pairs : list (value * value)) :
  all_equal pairs ->
  forall index previous, first_divergence pairs index previous = Return None.
Proof.
  induction pairs as [ | [a e] pairs IH ]; intros H index previous.
  - reflexivity.
  - pose proof (H (a, e) (or_introl eq_refl)) as Hae. simpl in Hae.
    simpl. rewrite Hae. simpl. apply IH. intros p Hp. apply H. right. exact Hp.
Qed.

Lemma first_divergence_some (pairs : list (value * value)) :
  all_equal pairs ->
  forall a e rest index previous,
    py_eq a e = CFalse ->
    first_divergence (pairs ++ (a, e) :: rest) index previous
    = Return (Some {| index := index + List.length pairs;
                      previous_element := last (map fst pairs) previous;
                      actual := a;
                      expected := e;
                      remaining := rest |}).
Proof.
  induction pairs as [ | [x y] pairs IH ]; intros H a e rest index previous Hae.
  - simpl. rewrite Hae. simpl. rewrite Nat.add_0_r. reflexivity.
  - pose proof (H (x, y) (or_introl eq_refl)) as Hxy. simpl in Hxy.
    simpl app. cbn [first_divergence]. rewrite Hxy.
    cbn [truth bind]. rewrite IH by
      (try assumption; intros p Hp; apply H; right; exact Hp).
    cbn [List.length map fst]. rewrite Nat.add_succ_r, last_cons_default.
    reflexivity.
Qed.

Lemma all_equal_last_found (pairs : list (value * value)) :
  all_equal pairs ->
  forall d, py_eq d VNotFound <> CRaise ->
            py_eq (last (map fst pairs) d) VNotFound <> CRaise.
Proof.
  induction pairs as [ | [x y] pairs IH ]; intros H d Hd.
  - exact Hd.
  - cbn [map fst]. rewrite last_cons_default. apply IH.
    + intros p Hp. apply H. right. exact Hp.
    + pose proof (H (x, y) (or_introl eq_refl)) as Hxy. simpl in Hxy.
      destruct (py_eq_notfound x y) as [Hx _]; [congruence | ].
      rewrite Hx. destruct (py_is_notfound x); discriminate.
Qed.

Lemma zip_longest_all_equal (d s : list value) :
  Forall2 (fun a e => py_eq a e = CTrue) d s -> all_equal (zip_longest d s).
Proof.
  induction 1 as [ | a e d s Hae _ IH ]; intros p Hp.
  - destruct Hp.
  - destruct Hp as [Hp | Hp]; [subst p; exact Hae | exact (IH p Hp)].
Qed.

Section SequenceComparison.

Variable repr : value -> string.
Variable type_name : value -> string.

Lemma divergence_message_heading (b : divergence) :
  py_eq (actual b) (expected b) <> CRaise ->
  py_eq (previous_element b) VNotFound <> CRaise ->
  exists message,
    divergence_message repr b = Return message
    /\ String.prefix (heading (actual b) (expected b) (index b)) message
       = true.
Proof.
  intros Hae Hprev. destruct (py_eq_notfound _ _ Hae) as [Ha He].
  unfold divergence_message, message_ends, py_ne, heading.
  rewrite Ha.
  destruct (py_eq (previous_element b) VNotFound) eqn:Ep;
    [ | | congruence ];
    destruct (py_is_notfound (actual b)); cbn [cmp_of_bool truth bind];
      try rewrite He;
      try (destruct (py_is_notfound (expected b));
           cbn [cmp_of_bool truth bind]);
      rewrite ?Ep; cbn [cmp_not cmp_of_bool truth bind fst snd];
      eexists; (split; [reflexivity | apply prefix_app]).
Qed.

(** Claim C1, as the code has it.  For data that is a sequence and no
    string, [_compare_sequence] pairs data and requirement by position,
    the shorter side padded with the sentinel.  When the two are
    element-wise equal it returns [None].  Otherwise it stops at the first
    unequal pair and returns one [AssertionError], whose message begins by
    saying, with the index of that pair, that the data sequence is missing
    elements (the data side is the sentinel), contains extra elements (the
    requirement side is the sentinel) or differs. *)
Theorem compare_sequence_stops_at_first_divergence (data sequence : value) :
  isinstance_str data = false ->
  isinstance_Sequence data = true ->
  iterable sequence = true ->
  (Forall2 (fun a e => py_eq a e = CTrue) (items_of data) (items_of sequence)
   -> _compare_sequence repr type_name data sequence = Return NoDifference)
  /\ (forall pairs a e rest,
        zip_longest (items_of data) (items_of sequence)
        = (pairs ++ (a, e) :: rest)%list ->
        all_equal pairs ->
        py_eq a e = CFalse ->
        exists message,
          _compare_sequence repr type_name data sequence
          = Return (Assertion message)
          /\ String.prefix (heading a e (List.length pairs)) message = true).
Proof.
  intros Hstr Hseq Hit. unfold _compare_sequence.
  rewrite Hstr, Hseq, Hit. cbn [negb]. split.
  - intros H. rewrite first_divergence_none by
      (apply zip_longest_all_equal; exact H).
    reflexivity.
  - intros pairs a e rest Hz Heq Hae. rewrite Hz.
    rewrite (first_divergence_some pairs Heq a e rest 0 VNotFound Hae).
    cbn [bind].
    destruct (divergence_message_heading
                {| index := 0 + List.length pairs;
                   previous_element := last (map fst pairs) VNotFound;
                   actual := a; expected := e; remaining := rest |})
      as (message & Hm & Hp).
    + cbn [actual expected]. congruence.
    + cbn [previous_element]. apply all_equal_last_found;
        [exact Heq | discriminate].
    + rewrite Hm. cbn [bind]. exists message. split; [reflexivity | exact Hp].
Qed.

End SequenceComparison.

Lemma compare_sequence_stops_at_first_divergence_witness :
  exists message,
    _compare_sequence repr_basic type_name_basic
      (strings ["aaa"; "bbb"; "ccc"; "ddd"; "eee"])
      (strings ["aaa"; "ccc"; "eee"])
    = Return (Assertion message)
    /\ String.prefix
         (heading (VStr "bbb") (VStr "ccc") (List.length [(VStr "aaa", VStr "aaa")]))
         message = true.
Proof.
  apply (proj2 (compare_sequence_stops_at_first_divergence
                  repr_basic type_name_basic
                  (strings ["aaa"; "bbb"; "ccc"; "ddd"; "eee"])
                  (strings ["aaa"; "ccc"; "eee"])
                  eq_refl eq_refl eq_refl)
           [(VStr "aaa", VStr "aaa")] (VStr "bbb") (VStr "ccc")
           [(VStr "ccc", VStr "eee"); (VStr "ddd", VNotFound);
            (VStr "eee", VNotFound)]).
  - reflexivity.
  - intros p [Hp | []]. subst p. reflexivity.
  - reflexivity.
Defined.

Example compare_sequence_test_extra :
  _compare_sequence repr_basic type_name_basic
    (strings ["aaa"; "bbb"; "ccc"; "ddd"; "eee"])
    (strings ["aaa"; "ccc"; "eee"])
  = Return
      (Assertion
         ("Data sequence differs starting at index 1:" ++ newline ++ newline
            ++ "  'aaa', 'bbb', 'ccc', ..." ++ newline
            ++ "         ^^^^^" ++ newline
            ++ "Found 'bbb', expected 'ccc'")).
Proof. reflexivity. Qed.

(** Claim C1 as stated fails on the data and requirement of [test_extra]:
    where the claim expects the mapping
    {(1, 1): Extra('bbb'), (3, 2): Extra('ddd')}, [_compare_sequence]
    returns no mapping. *)
Lemma compare_sequence_returns_no_mapping :
  ~ (exists m,
       _compare_sequence repr_basic type_name_basic
         (strings ["aaa"; "bbb"; "ccc"; "ddd"; "eee"])
         (strings ["aaa"; "ccc"; "eee"])
       = Return (Keyed m)).
Proof. intros [m H]. vm_compute in H. discriminate H. Qed.

(** Claim C9, as the code has it.  When the data is a string, or is no
    sequence, [_compare_sequence] raises a [ValueError] and returns no
    report, also when it is reached through [_do_comparison] with a list
    or a tuple as the requirement. *)
Theorem compare_sequence_rejects_nonsequence
    (repr type_name : value -> string)
    (_get_error : value -> value -> bool -> difference) (data : value) :
  isinstance_str data = true \/ isinstance_Sequence data = false ->
  (forall sequence,
     exists msg,
       _compare_sequence repr type_name data sequence = Raise (ValueError msg))
  /\ (forall items,
        exists msg,
          _do_comparison repr type_name _get_error data (Obj (VList items))
          = Raise (ValueError msg))
  /\ (forall items,
        exists msg,
          _do_comparison repr type_name _get_error data (Obj (VTuple items))
          = Raise (ValueError msg)).
Proof.
  intros H.
  assert (Hseq : forall sequence,
             exists msg,
               _compare_sequence repr type_name data sequence
               = Raise (ValueError msg)).
  { intros sequence. unfold _compare_sequence.
    destruct (isinstance_str data) eqn:Hstr.
    - eexists. reflexivity.
    - destruct H as [H | H]; [discriminate H | ].
      rewrite H. eexists. reflexivity. }
  split; [exact Hseq | split]; intros items; apply Hseq.
Qed.

Lemma compare_sequence_rejects_nonsequence_witness :
  exists msg,
    _compare_sequence repr_basic type_name_basic (VStr "abc")
      (strings ["a"; "b"; "c"])
    = Raise (ValueError msg).
Proof.
  apply (proj1 (compare_sequence_rejects_nonsequence
                  repr_basic type_name_basic nonnumeric_difference
                  (VStr "abc") (or_introl eq_refl))).
Defined.

(** Claim C9 as stated fails for the string 'abc': what is raised is no
    [TypeError]. *)
Lemma compare_sequence_string_no_TypeError :
  ~ (exists msg,
       _compare_sequence repr_basic type_name_basic (VStr "abc")
         (strings ["a"; "b"; "c"])
       = Raise (TypeError msg)).
Proof. intros [msg H]. vm_compute in H. discriminate H. Qed.

(** ** Predicate, pattern and equality comparison *)

Section ElementLoops.

Variable repr : value -> string.
Variable type_name : value -> string.
Variable _get_error : value -> value -> bool -> difference.

Lemma callable_loop_app name function (l m : list value) :
  callable_loop repr name function (l ++ m)
  = chain (callable_loop repr name function l)
          (callable_loop repr name function m).
Proof.
  induction l as [ | x l IH ]; [reflexivity | ].
  cbn [app callable_loop]. rewrite IH.
  destruct (if _is_nsiterable x then function (items_of x) else function [x])
    as [ [ [ | | [ | ] | | | | | | | | | ] | d ] | ]; reflexivity.
Qed.







End ElementLoops.




Example compare_other_broken_comparison :
  _compare_other repr_basic type_name_basic nonnumeric_difference
    (VList [VInt 10; VObject 0; VInt 10]) (VInt 10)
  = gen_of_list [Invalid (VObject 0) None].
Proof. reflexivity. Qed.

Example compare_regex_raised_error :
  _compare_regex (VList [VStr "a1"; VStr "b2"; VInt 30]) letter_digit_search
  = gen_of_list [Invalid (VInt 30) None].
Proof. reflexivity. Qed.

(** ** Dispatch and mapping comparison *)

Section Dispatch.

Variable repr : value -> string.
Variable type_name : value -> string.
Variable _get_error : value -> value -> bool -> difference.

(** Through [_do_comparison] the sentinel reaches the predicate and the
    pattern as it is: the element the loops run over is [NOTFOUND]. *)
Lemma do_comparison_notfound_element :
  (forall name function,
     _do_comparison repr type_name _get_error VNotFound (Callable name function)
     = first_or_none true (callable_loop repr name function [VNotFound]))
  /\ (forall search,
        _do_comparison repr type_name _get_error VNotFound (Pattern search)
        = first_or_none true (regex_loop search [VNotFound])).
Proof. split; reflexivity. Qed.

(** Called on the sentinel itself, [_compare_callable] and
    [_compare_regex] run over the single element [None]. *)
Lemma compare_notfound_directly :
  (forall name function,
     _compare_callable repr VNotFound name function
     = callable_loop repr name function [VNone])
  /\ (forall search,
        _compare_regex VNotFound search = regex_loop search [VNone]).
Proof. split; reflexivity. Qed.

(** Claim C4.  [_do_comparison] wraps the sentinel in a list before it
    calls [_compare_callable] or [_compare_regex], so their own test
    [data is NOTFOUND] never holds on this path: the predicate
    [lambda x: x is None] is called with the sentinel and reports
    [Invalid(NOTFOUND)], where a call with [None] (which is what
    [_compare_callable] makes when it is given the sentinel itself)
    reports nothing; and the pattern is searched in the sentinel, giving
    [Invalid(NOTFOUND)] where [_compare_regex] on the sentinel gives
    [Invalid(None)]. *)
Theorem do_comparison_passes_sentinel_to_predicate :
  _do_comparison repr type_name _get_error VNotFound
    (Callable "is_none" is_none)
  = Return (Single (Invalid VNotFound None))
  /\ _compare_callable repr VNotFound "is_none" is_none = GDone
  /\ _do_comparison repr type_name _get_error VNotFound
       (Pattern letter_digit_search)
     = Return (Single (Invalid VNotFound None))
  /\ _compare_regex VNotFound letter_digit_search
     = gen_of_list [Invalid VNone None].
Proof. repeat split. Qed.

(** When [_is_collection_of_items] is bound, [_compare_mapping] raises the
    type error for data that is neither a mapping nor a collection of
    items. *)
Lemma compare_mapping_in_TypeError (globals : namespace)
    (is_items : value -> bool) (data : value)
    (mapping : list (value * requirement)) :
  globals "_is_collection_of_items" = Some is_items ->
  isinstance_Mapping data = false ->
  is_items data = false ->
  _compare_mapping_in repr type_name _get_error globals data mapping
  = GRaise (TypeError "data must be mapping or iterable of key-value items").
Proof.
  intros Hg Hm Hi. unfold _compare_mapping_in. rewrite Hm, Hg, Hi.
  reflexivity.
Qed.

(** As validate.py stands, data that is no mapping gets a name error. *)
Lemma compare_mapping_NameError (data : value)
    (mapping : list (value * requirement)) :
  isinstance_Mapping data = false ->
  _compare_mapping repr type_name _get_error data mapping
  = GRaise (NameError "name '_is_collection_of_items' is not defined").
Proof.
  intros Hm. unfold _compare_mapping, _compare_mapping_in. rewrite Hm.
  reflexivity.
Qed.

(** Claim C2.  On the integer 5, which is neither a mapping nor an
    iterable of key-value pairs, [_compare_mapping] raises a [NameError]
    where the claim expects a type error; on a list of one key-value pair
    it raises the same [NameError] where the claim expects the per-key
    comparison, and so does [_do_mapping_comparison]. *)
Theorem compare_mapping_name_error_for_items :
  _compare_mapping repr type_name _get_error (VInt 5)
    [(VStr "a", Obj (VInt 1))]
  = GRaise (NameError "name '_is_collection_of_items' is not defined")
  /\ _compare_mapping repr type_name _get_error
       (VList [VTuple [VStr "a"; VInt 1]]) [(VStr "a", Obj (VInt 1))]
     = GRaise (NameError "name '_is_collection_of_items' is not defined")
  /\ _do_mapping_comparison repr type_name _get_error
       (VList [VTuple [VStr "a"; VInt 1]]) [(VStr "a", Obj (VInt 1))]
     = Raise (NameError "name '_is_collection_of_items' is not defined").
Proof. repeat split. Qed.

(** Claim C3.  For empty data and the requirement {'a': set()},
    [_compare_mapping] yields the pair ('a', None): the loop over the keys
    that only the requirement has yields every report, the empty one
    too.  (With the requirement {'a': lambda x: x is None} the report it
    yields is a difference.)  The loop over the keys of the data does
    test the report: for the data {'a': set()} and the requirement
    {'a': set()} nothing is yielded. *)
Theorem compare_mapping_yields_None_for_requirement_key :
  _compare_mapping repr type_name _get_error (VDict [])
    [(VStr "a", Obj (VSet []))]
  = GYield (VStr "a", NoDifference) GDone
  /\ _compare_mapping repr type_name _get_error (VDict [])
       [(VStr "a", Callable "is_none" is_none)]
     = GYield (VStr "a", Single (Invalid VNotFound None)) GDone
  /\ _compare_mapping repr type_name _get_error
       (VDict [(VStr "a", VSet [])]) [(VStr "a", Obj (VSet []))]
     = GDone.
Proof. repeat split. Qed.

Lemma materialize_not_Lazy (r r' : report) :
  materialize r = Return r' -> forall g, r' <> Lazy g.
Proof.
  destruct r as [ | d | message | lazy | l | m ]; cbn; intros H g;
    try (injection H as <-; discriminate).
  destruct (to_list lazy); cbn in H; [ | discriminate H].
  injection H as <-. discriminate.
Qed.

Lemma requirement_loop_materialized (data_keys : list value)
    (mapping_items : list (value * requirement)) :
  forall key r,
    In (key, r)
       (yielded (requirement_loop repr type_name _get_error data_keys
                   mapping_items)) ->
    forall g, r <> Lazy g.
Proof.
  induction mapping_items as [ | [k expected] rest IH ]; intros key r H g.
  - destruct H.
  - cbn [requirement_loop] in H.
    destruct (negb (py_in k data_keys)); [ | exact (IH key r H g)].
    destruct (_do_comparison repr type_name _get_error VNotFound expected)
      as [result | e]; cbn [bind] in H; [ | destruct H].
    destruct (materialize result) as [result' | e] eqn:Hm; [ | destruct H].
    destruct H as [H | H].
    + injection H as _ <-. exact (materialize_not_Lazy result result' Hm g).
    + exact (IH key r H g).
Qed.

(** Every report [_compare_mapping] yields has been materialized. *)
Lemma compare_mapping_materialized (data : value)
    (mapping : list (value * requirement)) :
  forall key r,
    In (key, r) (yielded (_compare_mapping repr type_name _get_error
                            data mapping)) ->
    forall g, r <> Lazy g.
Proof.
  unfold _compare_mapping, _compare_mapping_in.
  destruct (isinstance_Mapping data); cbn; [ | intros key r []].
  generalize (@nil value) as data_keys.
  induction (dict_items data) as [ | item rest IH ]; intros data_keys key r H g.
  - exact (requirement_loop_materialized data_keys mapping key r H g).
  - cbn [data_loop] in H.
    destruct (unpack_pair type_name item) as [[k actual] | e]; [ | destruct H].
    destruct (unhashable_part k); [destruct H | ].
    destruct (_do_comparison repr type_name _get_error actual
                (mapping_get mapping k)) as [result | e]; [ | destruct H].
    destruct (truthy result); [ | exact (IH _ key r H g)].
    destruct (materialize result) as [result' | e] eqn:Hm; [ | destruct H].
    destruct H as [H | H].
    + injection H as _ <-. exact (materialize_not_Lazy result result' Hm g).
    + exact (IH _ key r H g).
Qed.

End Dispatch.

(** ** Construction of Deviation *)

(** Claim C5, as the tests have it.  [Deviation(0, 5)] raises;
    [Deviation(5, 0)] succeeds; [Deviation(5, None)] succeeds and is
    [Deviation(+5, None)]; a diff that is zero or [False] is rejected
    whenever the expected value is not empty (not [None], [''] or NaN),
    and is accepted whenever the expected value is empty. *)
Theorem Deviation_zero_diff_rule :
  (exists msg, new_Deviation (VInt 0) (VInt 5) = Raise (ValueError msg))
  /\ new_Deviation (VInt 5) (VInt 0) = Return (Deviation (VInt 5) (VInt 0))
  /\ new_Deviation (VInt 5) VNone = Return (Deviation (VInt 5) VNone)
  /\ (forall diff expected,
        is_zero diff = true -> is_empty expected = false ->
        exists msg, new_Deviation diff expected = Raise (ValueError msg))
  /\ (forall diff expected,
        is_zero diff = true -> is_empty expected = true ->
        new_Deviation diff expected = Return (Deviation diff expected)).
Proof.
  split; [eexists; reflexivity | ].
  split; [reflexivity | ].
  split; [reflexivity | ].
  split.
  - intros diff expected Hz He. unfold new_Deviation. rewrite Hz, He.
    eexists. reflexivity.
  - intros diff expected Hz He. unfold new_Deviation. rewrite Hz, He.
    cbn [negb andb orb]. rewrite andb_false_r. reflexivity.
Qed.

Lemma Deviation_zero_diff_rule_witness :
  (exists msg, new_Deviation (VBool false) (VInt 100) = Raise (ValueError msg))
  /\ new_Deviation (VFloat 0) VNaN = Return (Deviation (VFloat 0) VNaN).
Proof.
  split.
  - apply (proj1 (proj2 (proj2 (proj2 Deviation_zero_diff_rule)))
             (VBool false) (VInt 100)); reflexivity.
  - apply (proj2 (proj2 (proj2 (proj2 Deviation_zero_diff_rule)))
             (VFloat 0) VNaN); reflexivity.
Defined.

(** Claim C5 as stated fails: [Deviation(5, 0)] does not raise (it is the
    call [Deviation(+5, x)] of [test_zero_value_handling] with [x = 0]). *)
Lemma Deviation_5_0_does_not_raise :
  ~ (exists e, new_Deviation (VInt 5) (VInt 0) = Raise e).
Proof. intros [e H]. discriminate H. Qed.

(** The calls of [TestDeviation]. *)
Example Deviation_test_empty_value_handling :
  forall x, In x [VNone; VStr ""; VNaN] ->
    new_Deviation (VInt 0) x = Return (Deviation (VInt 0) x)
    /\ new_Deviation (VInt 5) x = Return (Deviation (VInt 5) x)
    /\ new_Deviation x (VInt 0) = Return (Deviation x (VInt 0))
    /\ new_Deviation x (VInt 5) = Raise (ValueError "").
Proof.
  intros x [<- | [<- | [<- | []]]]; repeat split.
Qed.

Example Deviation_test_zero_value_handling :
  forall x, In x [VInt 0; VFloat 0; VBool false] ->
    new_Deviation (VInt 5) x = Return (Deviation (VInt 5) x)
    /\ new_Deviation (VInt 0) x = Raise (ValueError "")
    /\ new_Deviation x (VInt 0) = Raise (ValueError "")
    /\ new_Deviation x (VInt 5) = Raise (ValueError "").
Proof.
  intros x [<- | [<- | [<- | []]]]; repeat split.
Qed.

(** * Further properties of the comparison functions *)

(** ** Sequence comparison *)

Lemma py_eq_sentinel_r (a : value) :
  py_eq a VNotFound = CTrue -> py_is_notfound a = true.
Proof. destruct a; simpl; congruence. Qed.

Lemma py_eq_sentinel_l (e : value) :
  py_eq VNotFound e = CTrue -> py_is_notfound e = true.
Proof. destruct e; simpl; congruence. Qed.

Lemma first_divergence_None_inv (zipped : list (value * value)) :
  forall index previous,
    first_divergence zipped index previous = Return None ->
    all_equal zipped.
Proof.
  induction zipped as [ | [a e] zipped IH ]; intros index previous H p Hp.
  - destruct Hp.
  - cbn [first_divergence] in H.
    destruct (py_eq a e) eqn:Eae; cbn [truth bind] in H; try discriminate H.
    destruct Hp as [Hp | Hp].
    + subst p. exact Eae.
    + exact (IH _ _ H p Hp).
Qed.

Lemma zip_longest_all_equal_inv (d : list value) :
  forall s,
    forallb (fun x => negb (py_is_notfound x)) d = true ->
    forallb (fun x => negb (py_is_notfound x)) s = true ->
    all_equal (zip_longest d s) ->
    Forall2 (fun a e => py_eq a e = CTrue) d s.
Proof.
  induction d as [ | a d IH ]; intros s Hd Hs H.
  - destruct s as [ | e s ]; [constructor | exfalso].
    cbn [forallb] in Hs. apply andb_true_iff in Hs. destruct Hs as [He _].
    pose proof (H (VNotFound, e) (or_introl eq_refl)) as Hp. cbn in Hp.
    apply py_eq_sentinel_l in Hp. rewrite Hp in He. discriminate He.
  - cbn [forallb] in Hd. apply andb_true_iff in Hd. destruct Hd as [Ha Hd].
    destruct s as [ | e s ].
    + exfalso.
      pose proof (H (a, VNotFound) (or_introl eq_refl)) as Hp. cbn in Hp.
      apply py_eq_sentinel_r in Hp. rewrite Hp in Ha. discriminate Ha.
    + cbn [forallb] in Hs. apply andb_true_iff in Hs. destruct Hs as [He Hs].
      constructor.
      * exact (H (a, e) (or_introl eq_refl)).
      * apply IH; try assumption.
        intros p Hp. apply H. right. exact Hp.
Qed.

Lemma first_divergence_raise (pairs : list (value * value)) :
  all_equal pairs ->
  forall a e rest index previous,
    py_eq a e = CRaise ->
    first_divergence (pairs ++ (a, e) :: rest) index previous
    = Raise RaisedByEq.
Proof.
  induction pairs as [ | [x y] pairs IH ]; intros H a e rest index previous Hae.
  - cbn. rewrite Hae. reflexivity.
  - pose proof (H (x, y) (or_introl eq_refl)) as Hxy. simpl in Hxy.
    simpl app. cbn [first_divergence]. rewrite Hxy. cbn [truth bind].
    apply IH; [ | exact Hae]. intros p Hp. apply H. right. exact Hp.
Qed.

Section MoreSequence.

Variable repr : value -> string.
Variable type_name : value -> string.

(** X1.  [_compare_sequence] returns [None] only for equal sequences: when
    it returns [None] and the sentinel is no element of either side, the
    data is a sequence other than a string, it is as long as the
    requirement, and the two are equal element by element. *)
Theorem compare_sequence_None_only_if_equal (data sequence : value) :
  _compare_sequence repr type_name data sequence = Return NoDifference ->
  forallb (fun x => negb (py_is_notfound x)) (items_of data) = true ->
  forallb (fun x => negb (py_is_notfound x)) (items_of sequence) = true ->
  isinstance_str data = false
  /\ isinstance_Sequence data = true
  /\ List.length (items_of data) = List.length (items_of sequence)
  /\ Forall2 (fun a e => py_eq a e = CTrue)
       (items_of data) (items_of sequence).
Proof.
  unfold _compare_sequence. intros H Hd Hs.
  destruct (isinstance_str data); [discriminate H | ].
  destruct (isinstance_Sequence data); [ | discriminate H].
  destruct (iterable sequence); [ | discriminate H]. cbn [negb] in H.
  destruct (first_divergence
              (zip_longest (items_of data) (items_of sequence)) 0 VNotFound)
    as [[b | ] | e] eqn:Ef; cbn [bind] in H.
  - destruct (divergence_message repr b); discriminate H.
  - assert (HF : Forall2 (fun a e => py_eq a e = CTrue)
                   (items_of data) (items_of sequence)).
    { apply zip_longest_all_equal_inv; try assumption.
      exact (first_divergence_None_inv _ _ _ Ef). }
    repeat split; try exact HF.
    exact (Forall2_length HF).
  - discriminate H.
Qed.

(** X2.  [_compare_sequence] does not catch a failing [==]: when the
    pairs before some position are equal and the comparison of the pair at
    that position raises, the exception leaves [_compare_sequence] and no
    report is returned. *)
Theorem compare_sequence_propagates_eq_failure (data sequence : value) :
  isinstance_str data = false ->
  isinstance_Sequence data = true ->
  iterable sequence = true ->
  forall pairs a e rest,
    zip_longest (items_of data) (items_of sequence)
    = (pairs ++ (a, e) :: rest)%list ->
    all_equal pairs ->
    py_eq a e = CRaise ->
    _compare_sequence repr type_name data sequence = Raise RaisedByEq.
Proof.
  intros Hstr Hseq Hit pairs a e rest Hz Heq Hae. unfold _compare_sequence.
  rewrite Hstr, Hseq, Hit, Hz. cbn [negb].
  rewrite (first_divergence_raise pairs Heq a e rest 0 VNotFound Hae).
  reflexivity.
Qed.

End MoreSequence.

Lemma compare_sequence_None_only_if_equal_witness :
  List.length [VInt 1; VBool true] = List.length [VInt 1; VInt 1]
  /\ Forall2 (fun a e => py_eq a e = CTrue)
       [VInt 1; VBool true] [VInt 1; VInt 1].
Proof.
  apply (compare_sequence_None_only_if_equal repr_basic type_name_basic
           (VList [VInt 1; VBool true]) (VTuple [VInt 1; VInt 1])
           eq_refl eq_refl eq_refl).
Defined.

Lemma compare_sequence_propagates_eq_failure_witness :
  _compare_sequence repr_basic type_name_basic
    (VList [VInt 10; VObject 0; VInt 10]) (VList [VInt 10; VInt 10; VInt 11])
  = Raise RaisedByEq.
Proof.
  apply (compare_sequence_propagates_eq_failure repr_basic type_name_basic
           (VList [VInt 10; VObject 0; VInt 10])
           (VList [VInt 10; VInt 10; VInt 11])
           eq_refl eq_refl eq_refl
           [(VInt 10, VInt 10)] (VObject 0) (VInt 10) [(VInt 10, VInt 11)]).
  - reflexivity.
  - intros p [Hp | []]. subst p. reflexivity.
  - reflexivity.
Defined.

(** ** Element-wise comparisons *)

Section MoreElementLoops.

Variable repr : value -> string.
Variable type_name : value -> string.
Variable _get_error : value -> value -> bool -> difference.

(** X3.  [_compare_other] reports exactly the elements that are not
    known to equal the requirement: its result is, in the order of the
    data and with repetitions kept, the difference [_get_error] makes
    (with the expected value omitted) for each element whose [==] with
    the requirement is not true, be it false or raising; it never ends in
    an exception. *)
Theorem compare_other_reports_unequal_elements (elements : list value)
    (other : value) :
  _compare_other repr type_name _get_error (VList elements) other
  = gen_of_list
      (map (fun element => _get_error element other true)
         (filter (fun element => negb (is_true (py_eq element other)))
            elements)).
Proof.
  unfold _compare_other.
  cbn [iterable isinstance_str _is_nsiterable orb items_of].
  induction elements as [ | x l IH ]; [reflexivity | ].
  cbn [other_loop filter]. unfold py_ne.
  destruct (py_eq x other); cbn [cmp_not is_true negb map gen_of_list];
    rewrite IH; reflexivity.
Qed.


Lemma callable_loop_boolean (name : string)
    (function : list value -> outcome) (elements : list value) :
  (forall element,
     In element elements ->
     call function element = Throws
     \/ exists b, call function element = Returns (RValue (VBool b))) ->
  callable_loop repr name function elements
  = gen_of_list
      (map (fun element => Invalid element None)
         (filter (fun element => match call function element with
                                 | Returns (RValue (VBool true)) => false
                                 | _ => true
                                 end) elements)).
Proof.
  unfold call.
  induction elements as [ | x l IH ]; intros H; [reflexivity | ].
  cbn [callable_loop filter].
  assert (Hl : forall element,
             In element l ->
             (if _is_nsiterable element then function (items_of element)
              else function [element]) = Throws
             \/ exists b,
                 (if _is_nsiterable element then function (items_of element)
                  else function [element]) = Returns (RValue (VBool b)))
    by (intros element Hin; apply H; right; exact Hin).
  destruct (H x (or_introl eq_refl)) as [Hx | [[ | ] Hx]]; rewrite Hx;
    cbn [map gen_of_list]; rewrite (IH Hl); reflexivity.
Qed.


(** X6.  For data that is one element (not a non-string iterable, or a
    mapping) and a requirement that is no list, tuple, set, function or
    pattern (a string requirement included), [_do_comparison] returns
    [None] when data equals the requirement and otherwise the single
    difference [_get_error] makes, with the expected value omitted; it
    never raises, also when [==] does. *)
Theorem do_comparison_single_value_equality (data other : value) :
  negb (_is_nsiterable data) || isinstance_Mapping data = true ->
  isinstance_str other = true \/ isinstance_Sequence other = false ->
  isinstance_Set other = false ->
  _do_comparison repr type_name _get_error data (Obj other)
  = Return (if is_true (py_eq data other) then NoDifference
            else Single (_get_error data other true)).
Proof.
  intros Hsingle Hseq Hset. unfold _do_comparison.
  destruct other; cbn in Hseq, Hset;
    try (destruct Hseq; discriminate); try discriminate Hset;
    rewrite Hsingle; unfold _compare_other;
    cbn [iterable isinstance_str _is_nsiterable orb items_of other_loop];
    unfold py_ne;
    match goal with
    | |- context [py_eq data ?o] => destruct (py_eq data o)
    end; reflexivity.
Qed.

(** X7.  For a requirement that is no list, tuple or set, what
    [_do_comparison] returns has the shape the data decides: for data that
    is one element, [None] or one difference, never an iterator; for
    iterable data, [None] or an iterator that holds at least one
    difference. *)
Theorem do_comparison_report_shape (data : value) (requirement : requirement)
    (r : report) :
  (forall items, requirement <> Obj (VTuple items)) ->
  (forall items, requirement <> Obj (VList items)) ->
  (forall members, requirement <> Obj (VSet members)) ->
  _do_comparison repr type_name _get_error data requirement = Return r ->
  if negb (_is_nsiterable data) || isinstance_Mapping data then
    r = NoDifference \/ exists d, r = Single d
  else
    r = NoDifference \/ exists d g, r = Lazy (GYield d g).
Proof.
  intros Ht Hl Hs. unfold _do_comparison.
  set (single := negb (_is_nsiterable data) || isinstance_Mapping data).
  set (result :=
         match requirement with
         | Callable name function =>
             _compare_callable repr (if single then VList [data] else data)
               name function
         | Pattern search =>
             _compare_regex (if single then VList [data] else data) search
         | Obj other =>
             _compare_other repr type_name _get_error
               (if single then VList [data] else data) other
         end).
  assert (Hshape : first_or_none single result = Return r ->
                   if single
                   then r = NoDifference \/ exists d, r = Single d
                   else r = NoDifference
                        \/ exists d g, r = Lazy (GYield d g)).
  { unfold first_or_none. destruct result as [ | d g | e ].
    - intros H. injection H as <-. destruct single; left; reflexivity.
    - destruct single; intros H; injection H as <-; right.
      + exists d. reflexivity.
      + exists d, g. reflexivity.
    - discriminate. }
  destruct requirement as [name function | search | other]; try exact Hshape.
  destruct other; try exact Hshape; exfalso.
  - eapply Ht. reflexivity.
  - eapply Hl. reflexivity.
  - eapply Hs. reflexivity.
Qed.

End MoreElementLoops.

(** ** Set comparison *)

Lemma py_in_member (x : value) (s : list value) :
  plain x = true -> In x s -> py_in x s = true.
Proof.
  intros Hx Hin. unfold py_in. apply existsb_exists. exists x. split.
  - exact Hin.
  - rewrite py_eq_plain_refl by assumption. reflexivity.
Qed.

Lemma forallb_plain_In (s : list value) (x : value) :
  forallb plain s = true -> In x s -> plain x = true.
Proof. intros H Hin. rewrite forallb_forall in H. exact (H x Hin). Qed.

Section MoreSetComparison.

Variable repr : value -> string.
Variable type_name : value -> string.
Variable _get_error : value -> value -> bool -> difference.

Lemma compare_set_characterized (data : value) (requirement_set : list value) :
  _is_nsiterable data = true ->
  forallb plain (items_of data) = true ->
  forallb plain requirement_set = true ->
  exists missing_elements extra_elements,
    _compare_set repr type_name data requirement_set
    = Return (chain (gen_of_list (map Missing missing_elements))
                    (gen_of_list (map Extra extra_elements)))
    /\ incl missing_elements requirement_set
    /\ incl extra_elements (items_of data)
    /\ (forall x, plain x = true ->
          py_in x missing_elements
          = py_in x requirement_set && negb (py_in x (items_of data)))
    /\ (forall x, plain x = true ->
          py_in x extra_elements
          = py_in x (items_of data) && negb (py_in x requirement_set)).
Proof.
  intros Hns Hd Hreq.
  assert (Hnf : py_is_notfound data = false)
    by (destruct data; try discriminate Hns; reflexivity).
  unfold _compare_set. rewrite Hnf, Hns. cbn [negb].
  destruct (collect_elements_spec repr type_name requirement_set Hreq
              (items_of data) [] [] Hd eq_refl eq_refl)
    as (m & e & Heq & Hpm & Hpe & Hdm & Hde & Him & Hie & Hinm & Hine).
  rewrite Heq. cbn [bind fst snd].
  exists (set_difference requirement_set m), e.
  split; [reflexivity | ].
  split; [apply incl_filter | ].
  split; [exact Hie | ].
  split.
  - intros x Hx. rewrite py_in_set_difference, (Hinm x Hx) by assumption.
    cbn [py_in existsb orb]. py_in_cases.
  - intros x Hx. rewrite (Hine x Hx). reflexivity.
Qed.

(** X8.  For iterable data and a requirement set, both of hashable
    scalars or tuples of them, [_do_comparison] returns [None] exactly
    when the data and the requirement set have the same members. *)
Theorem do_comparison_set_None_iff_same_members (data : value)
    (requirement_set : list value) :
  _is_nsiterable data = true ->
  forallb plain (items_of data) = true ->
  forallb plain requirement_set = true ->
  (_do_comparison repr type_name _get_error data (Obj (VSet requirement_set))
   = Return NoDifference
   <-> forall x, plain x = true ->
                 py_in x (items_of data) = py_in x requirement_set).
Proof.
  intros Hns Hd Hreq.
  destruct (compare_set_characterized data requirement_set Hns Hd Hreq)
    as (ms & es & Heq & Hims & Hies & Hms & Hes).
  unfold _do_comparison. rewrite Heq. cbn [bind]. split.
  - intros H x Hx.
    destruct ms as [ | m ms ]; [ | discriminate H].
    destruct es as [ | e es ]; [ | discriminate H].
    specialize (Hms x Hx). specialize (Hes x Hx). cbn [py_in existsb] in Hms, Hes.
    destruct (py_in x (items_of data)), (py_in x requirement_set);
      try reflexivity; discriminate.
  - intros H.
    destruct ms as [ | m ms ].
    + destruct es as [ | e es ]; [reflexivity | exfalso].
      assert (He : plain e = true)
        by (eapply forallb_plain_In; [exact Hd | apply Hies; left; reflexivity]).
      specialize (Hes e He). rewrite (H e He) in Hes.
      rewrite (py_in_member e (e :: es) He (or_introl eq_refl)) in Hes.
      destruct (py_in e requirement_set); discriminate Hes.
    + exfalso.
      assert (Hm : plain m = true)
        by (eapply forallb_plain_In; [exact Hreq | apply Hims; left; reflexivity]).
      specialize (Hms m Hm). rewrite (H m Hm) in Hms.
      rewrite (py_in_member m (m :: ms) Hm (or_introl eq_refl)) in Hms.
      destruct (py_in m requirement_set); discriminate Hms.
Qed.

End MoreSetComparison.

Lemma distinct_app_r (m l : list value) :
  distinct (m ++ l)%list = true -> distinct l = true.
Proof.
  induction m as [ | y m IH ]; [auto | ].
  cbn [app distinct]. intros H. apply andb_true_iff in H. apply IH, H.
Qed.

Lemma distinct_app_mid (m : list value) (a : value) (l : list value) :
  forallb plain m = true -> plain a = true ->
  distinct (m ++ a :: l)%list = true -> py_in a m = false.
Proof.
  intros Hm Ha. induction m as [ | y m IH ]; [reflexivity | ].
  cbn [forallb] in Hm. apply andb_true_iff in Hm. destruct Hm as [Hy Hm].
  cbn [app distinct]. intros H. apply andb_true_iff in H. destruct H as [H1 H2].
  rewrite py_in_app, py_in_cons in H1. apply negb_true_iff in H1.
  apply orb_false_iff in H1. destruct H1 as [_ H1].
  apply orb_false_iff in H1. destruct H1 as [H1 _].
  rewrite py_in_cons, (is_true_py_eq_sym a y), H1 by assumption.
  exact (IH Hm H2).
Qed.

Lemma distinct_remove_mid (m : list value) (a : value) (l : list value) :
  distinct (m ++ a :: l)%list = true -> distinct (m ++ l)%list = true.
Proof.
  induction m as [ | y m IH ].
  - cbn [app distinct]. intros H. apply andb_true_iff in H. apply H.
  - cbn [app distinct]. intros H. apply andb_true_iff in H.
    destruct H as [H1 H2]. rewrite (IH H2), andb_true_r.
    apply negb_true_iff in H1. apply negb_true_iff.
    rewrite py_in_app in *. rewrite py_in_cons in H1.
    apply orb_false_iff in H1. destruct H1 as [Ha Hb].
    apply orb_false_iff in Hb. destruct Hb as [_ Hb].
    rewrite Ha, Hb. reflexivity.
Qed.

Lemma set_difference_covered (s t : list value) :
  (forall a, In a s -> py_in a t = true) -> set_difference s t = [].
Proof.
  induction s as [ | y s IH ]; intros H; [reflexivity | ].
  cbn [set_difference filter]. rewrite (H y (or_introl eq_refl)). cbn [negb].
  apply IH. intros a Ha. apply H. right. exact Ha.
Qed.

Section ExactSetReports.

Variable repr : value -> string.
Variable type_name : value -> string.

Lemma collect_elements_app (l1 l2 requirement_set : list value) :
  forall matching extra,
    collect_elements repr type_name (l1 ++ l2) requirement_set matching extra
    = (sets <- collect_elements repr type_name l1 requirement_set
                 matching extra ;;
       collect_elements repr type_name l2 requirement_set
         (fst sets) (snd sets)).
Proof.
  induction l1 as [ | a l1 IH ]; intros matching extra; [reflexivity | ].
  cbn [app collect_elements].
  destruct (unhashable_part a); [reflexivity | ].
  destruct (py_in a requirement_set); apply IH.
Qed.

Lemma collect_elements_members (l requirement_set : list value) :
  forall matching extra,
    forallb plain l = true ->
    forallb plain matching = true ->
    (forall a, In a l -> py_in a requirement_set = true) ->
    distinct (matching ++ l)%list = true ->
    collect_elements repr type_name l requirement_set matching extra
    = Return ((matching ++ l)%list, extra).
Proof.
  induction l as [ | a l IH ]; intros matching extra Hl Hm Hin Hd.
  - cbn. rewrite app_nil_r. reflexivity.
  - cbn [forallb] in Hl. apply andb_true_iff in Hl. destruct Hl as [Ha Hl].
    cbn [collect_elements].
    rewrite (plain_unhashable_part a Ha), (Hin a (or_introl eq_refl)).
    unfold set_add. rewrite (distinct_app_mid matching a l Hm Ha Hd).
    rewrite IH.
    + rewrite <- app_assoc. reflexivity.
    + exact Hl.
    + rewrite forallb_app, Hm. cbn. rewrite Ha. reflexivity.
    + intros b Hb. apply Hin. right. exact Hb.
    + rewrite <- app_assoc. exact Hd.
Qed.

(** X9.  For a set [S] of hashable scalars or tuples of them,
    [_compare_set] reports nothing for [S] against [S], exactly
    [Extra(x)] for [S] with a further element [x] against [S], and exactly
    [Missing(x)] for [S] without its member [x] against [S]. *)
Theorem compare_set_exact_reports (members : list value) :
  forallb plain members = true ->
  distinct members = true ->
  _compare_set repr type_name (VSet members) members = Return GDone
  /\ (forall x,
        plain x = true -> py_in x members = false ->
        _compare_set repr type_name (VSet (members ++ [x])) members
        = Return (gen_of_list [Extra x]))
  /\ (forall before x after,
        members = (before ++ x :: after)%list ->
        _compare_set repr type_name (VSet (before ++ after)) members
        = Return (gen_of_list [Missing x])).
Proof.
  intros Hp Hd.
  assert (Hself : forall a, In a members -> py_in a members = true)
    by (intros a Ha; apply py_in_member;
        [exact (forallb_plain_In members a Hp Ha) | exact Ha]).
  split; [ | split].
  - unfold _compare_set. cbn [py_is_notfound _is_nsiterable negb items_of].
    rewrite (collect_elements_members members members [] [] Hp eq_refl Hself Hd).
    cbn [bind fst snd app]. rewrite (set_difference_covered _ _ Hself).
    reflexivity.
  - intros x Hx Hnot. unfold _compare_set.
    cbn [py_is_notfound _is_nsiterable negb items_of].
    rewrite collect_elements_app.
    rewrite (collect_elements_members members members [] [] Hp eq_refl Hself Hd).
    cbn [bind fst snd app collect_elements].
    rewrite (plain_unhashable_part x Hx), Hnot.
    cbn [bind fst snd set_add py_in existsb app].
    rewrite (set_difference_covered _ _ Hself). reflexivity.
  - intros before x after Hm. subst members.
    rewrite forallb_app in Hp. apply andb_true_iff in Hp.
    destruct Hp as [Hpb Hpa]. cbn [forallb] in Hpa.
    apply andb_true_iff in Hpa. destruct Hpa as [Hx Hpa].
    assert (Hpd : forallb plain (before ++ after) = true)
      by (rewrite forallb_app, Hpb, Hpa; reflexivity).
    assert (Hdata : forall a, In a (before ++ after)%list ->
                              py_in a (before ++ after) = true)
      by (intros a Ha; apply py_in_member;
          [exact (forallb_plain_In _ a Hpd Ha) | exact Ha]).
    unfold _compare_set. cbn [py_is_notfound _is_nsiterable negb items_of].
    rewrite (collect_elements_members (before ++ after)
               (before ++ x :: after) [] [] Hpd eq_refl).
    + cbn [bind fst snd app]. unfold set_difference.
      rewrite filter_app. cbn [filter].
      assert (Hxb : py_in x before = false)
        by exact (distinct_app_mid before x after Hpb Hx Hd).
      assert (Hxa : py_in x after = false).
      { pose proof (distinct_app_r _ _ Hd) as H. cbn [distinct] in H.
        apply andb_true_iff in H. destruct H as [H _].
        apply negb_true_iff in H. exact H. }
      rewrite py_in_app, Hxb, Hxa. cbn [orb negb].
      fold (set_difference before (before ++ after)).
      fold (set_difference after (before ++ after)).
      rewrite !set_difference_covered.
      * reflexivity.
      * intros a Ha. apply Hdata, in_or_app. right. exact Ha.
      * intros a Ha. apply Hdata, in_or_app. left. exact Ha.
    + intros a Ha. apply Hself. apply in_app_or in Ha.
      apply in_or_app. destruct Ha as [Ha | Ha]; [left | right; right];
        exact Ha.
    + exact (distinct_remove_mid before x after Hd).
Qed.

End ExactSetReports.

(** ** Mapping comparison *)

Lemma materialize_NoDifference (r : report) :
  materialize r = Return NoDifference -> r = NoDifference.
Proof.
  destruct r as [ | d | message | lazy | l | m ]; cbn; intros H;
    try discriminate H; try reflexivity.
  destruct (to_list lazy); cbn in H; discriminate H.
Qed.

Lemma py_in_fold_set_add (todo : list (value * value)) :
  forall data_keys x,
    plain x = true ->
    forallb plain data_keys = true ->
    forallb plain (map fst todo) = true ->
    py_in x (fold_left (fun keys kv => set_add (fst kv) keys) todo data_keys)
    = py_in x data_keys || py_in x (map fst todo).
Proof.
  induction todo as [ | [k v] todo IH ]; intros data_keys x Hx Hk Ht.
  - cbn. rewrite orb_false_r. reflexivity.
  - cbn [map fst forallb] in Ht. apply andb_true_iff in Ht.
    destruct Ht as [Hpk Ht]. cbn [fold_left fst map].
    rewrite IH, py_in_set_add, py_in_cons by
      (try assumption; apply plain_set_add; assumption).
    rewrite orb_assoc. reflexivity.
Qed.

Section MoreMapping.

Variable repr : value -> string.
Variable type_name : value -> string.
Variable _get_error : value -> value -> bool -> difference.

Lemma requirement_loop_keys (data_keys : list value)
    (mapping_items : list (value * requirement)) :
  forall key r,
    In (key, r)
       (yielded (requirement_loop repr type_name _get_error data_keys
                   mapping_items)) ->
    py_in key data_keys = false.
Proof.
  induction mapping_items as [ | [k expected] rest IH ]; intros key r H.
  - destruct H.
  - cbn [requirement_loop] in H.
    destruct (py_in k data_keys) eqn:Ek; cbn [negb] in H;
      [exact (IH key r H) | ].
    destruct (_do_comparison repr type_name _get_error VNotFound expected)
      as [result | e]; cbn [bind] in H; [ | destruct H].
    destruct (materialize result) as [result' | e]; [ | destruct H].
    destruct H as [H | H].
    + injection H as <- _. exact Ek.
    + exact (IH key r H).
Qed.

Lemma data_loop_None_keys (mapping : list (value * requirement))
    (entries : list (value * value)) :
  forall data_keys key,
    plain key = true ->
    forallb plain data_keys = true ->
    forallb plain (map fst entries) = true ->
    In (key, NoDifference)
       (yielded (data_loop repr type_name _get_error mapping data_keys
                   (dict_items (VDict entries)))) ->
    py_in key data_keys = false /\ py_in key (map fst entries) = false.
Proof.
  induction entries as [ | [k v] entries IH ];
    intros data_keys key Hkey Hdk Hp H.
  - split; [ | reflexivity].
    exact (requirement_loop_keys data_keys mapping key NoDifference H).
  - cbn [map fst forallb] in Hp. apply andb_true_iff in Hp.
    destruct Hp as [Hk Hp].
    cbn [dict_items map fst snd data_loop unpack_pair iterable isinstance_str
         _is_nsiterable orb items_of] in H.
    rewrite (plain_unhashable_part k Hk) in H.
    assert (Hrest :
              In (key, NoDifference)
                 (yielded (data_loop repr type_name _get_error mapping
                             (set_add k data_keys)
                             (dict_items (VDict entries)))) ->
              py_in key data_keys = false
              /\ py_in key (map fst ((k, v) :: entries)) = false).
    { intros Hin.
      destruct (IH (set_add k data_keys) key Hkey
                  (plain_set_add k data_keys Hk Hdk) Hp Hin) as [H1 H2].
      rewrite py_in_set_add in H1 by assumption.
      apply orb_false_iff in H1. destruct H1 as [H1 H3].
      split; [exact H1 | ].
      cbn [map fst]. rewrite py_in_cons, H3, H2. reflexivity. }
    destruct (_do_comparison repr type_name _get_error v
                (mapping_get mapping k)) as [result | e]; [ | destruct H].
    destruct (truthy result) eqn:Et; [ | exact (Hrest H)].
    destruct (materialize result) as [result' | e] eqn:Hm; [ | destruct H].
    destruct H as [H | H]; [ | exact (Hrest H)].
    exfalso. injection H as _ ->.
    apply materialize_NoDifference in Hm. subst result. discriminate Et.
Qed.

(** X11.  [_compare_mapping] yields a report that is [None] only for a
    key the data does not have: for a key of the data a pair is yielded
    only when the report is a true value. *)
Theorem compare_mapping_None_only_for_missing_keys
    (entries : list (value * value)) (mapping : list (value * requirement))
    (key : value) :
  forallb plain (map fst entries) = true ->
  plain key = true ->
  In (key, NoDifference)
     (yielded (_compare_mapping repr type_name _get_error
                 (VDict entries) mapping)) ->
  py_in key (map fst entries) = false.
Proof.
  intros Hp Hkey H.
  exact (proj2 (data_loop_None_keys mapping entries [] key Hkey eq_refl Hp H)).
Qed.

(** X12.  Against empty data, [_compare_mapping] (when it ends without an
    exception) yields one pair for every key of the requirement, in the
    order of the requirement, and the report of each is what
    [_do_comparison(NOTFOUND, expected)] returns, made a list when it is
    an iterator; no key is left out, whatever its report. *)
Theorem compare_mapping_empty_data_reports_every_key
    (mapping : list (value * requirement)) :
  raised (_compare_mapping repr type_name _get_error (VDict []) mapping)
  = None ->
  Forall2
    (fun yielded_pair item =>
       fst yielded_pair = fst item
       /\ (result <- _do_comparison repr type_name _get_error
                       VNotFound (snd item) ;;
           materialize result) = Return (snd yielded_pair))
    (yielded (_compare_mapping repr type_name _get_error (VDict []) mapping))
    mapping.
Proof.
  unfold _compare_mapping, _compare_mapping_in.
  cbn [isinstance_Mapping dict_items map data_loop].
  induction mapping as [ | [k expected] rest IH ]; intros H.
  - constructor.
  - cbn [requirement_loop py_in existsb negb] in H |- *.
    destruct (result <- _do_comparison repr type_name _get_error
                          VNotFound expected ;;
              materialize result) as [result | e] eqn:Er.
    + cbn [yielded raised] in H |- *. constructor.
      * split; [reflexivity | exact Er].
      * exact (IH H).
    + discriminate H.
Qed.

Lemma do_comparison_plain_reflexive (v : value) :
  plain v = true ->
  _do_comparison repr type_name _get_error v (Obj v) = Return NoDifference.
Proof.
  intros Hv.
  destruct v as [ | | b | z | q | | s | l | l | l | l | n ];
    try discriminate Hv;
    try (unfold _do_comparison, _compare_other;
         cbn [_is_nsiterable isinstance_Mapping negb orb iterable
              isinstance_str items_of other_loop];
         unfold py_ne; rewrite py_eq_plain_refl by exact Hv; reflexivity).
  unfold _do_comparison, _compare_sequence.
  cbn [isinstance_str isinstance_Sequence negb iterable _is_nsiterable orb
       items_of].
  rewrite first_divergence_none; [reflexivity | ].
  apply zip_longest_all_equal. cbn [plain] in Hv.
  induction l as [ | x l IH ]; constructor.
  - cbn [forallb] in Hv. apply andb_true_iff in Hv.
    apply py_eq_plain_refl, Hv.
  - cbn [forallb] in Hv. apply andb_true_iff in Hv. apply IH, Hv.
Qed.

Lemma mapping_get_requirement_of (entries : list (value * value)) :
  forallb plain (map fst entries) = true ->
  distinct (map fst entries) = true ->
  forall k v,
    In (k, v) entries ->
    mapping_get (map (fun kv => (fst kv, Obj (snd kv))) entries) k = Obj v.
Proof.
  induction entries as [ | [k0 v0] entries IH ]; intros Hp Hd k v Hin.
  - destruct Hin.
  - cbn [map fst forallb distinct] in Hp, Hd.
    apply andb_true_iff in Hp, Hd.
    destruct Hp as [Hk0 Hp], Hd as [Hd0 Hd].
    cbn [map fst snd mapping_get]. destruct Hin as [Hin | Hin].
    + injection Hin as -> ->. rewrite py_eq_plain_refl by exact Hk0.
      reflexivity.
    + assert (Hk : plain k = true)
        by (eapply forallb_plain_In;
            [exact Hp | apply (in_map fst _ _ Hin)]).
      assert (Hneq : is_true (py_eq k k0) = false).
      { rewrite is_true_py_eq_sym by assumption.
        apply negb_true_iff in Hd0.
        destruct (is_true (py_eq k0 k)) eqn:E; [ | reflexivity].
        rewrite <- Hd0. symmetry. unfold py_in. apply existsb_exists.
        exists k. split; [apply (in_map fst _ _ Hin) | exact E]. }
      rewrite Hneq. exact (IH Hp Hd k v Hin).
Qed.

Lemma data_loop_no_difference (mapping : list (value * requirement))
    (todo : list (value * value)) :
  forall data_keys,
    forallb plain (map fst todo) = true ->
    (forall k v,
       In (k, v) todo ->
       _do_comparison repr type_name _get_error v (mapping_get mapping k)
       = Return NoDifference) ->
    data_loop repr type_name _get_error mapping data_keys
      (dict_items (VDict todo))
    = requirement_loop repr type_name _get_error
        (fold_left (fun keys kv => set_add (fst kv) keys) todo data_keys)
        mapping.
Proof.
  induction todo as [ | [k v] todo IH ]; intros data_keys Hp Hcmp.
  - reflexivity.
  - cbn [map fst forallb] in Hp. apply andb_true_iff in Hp.
    destruct Hp as [Hk Hp].
    cbn [dict_items map fst snd data_loop unpack_pair iterable isinstance_str
         _is_nsiterable orb items_of fold_left].
    rewrite (plain_unhashable_part k Hk), (Hcmp k v (or_introl eq_refl)).
    cbn [truthy]. apply (IH (set_add k data_keys) Hp).
    intros k' v' Hin. apply Hcmp. right. exact Hin.
Qed.

Lemma requirement_loop_all_present (data_keys : list value)
    (mapping_items : list (value * requirement)) :
  (forall k, In k (map fst mapping_items) -> py_in k data_keys = true) ->
  requirement_loop repr type_name _get_error data_keys mapping_items = GDone.
Proof.
  induction mapping_items as [ | [k expected] rest IH ]; intros H.
  - reflexivity.
  - cbn [requirement_loop]. rewrite (H k (or_introl eq_refl)). cbn [negb].
    apply IH. intros k' Hk'. apply H. right. exact Hk'.
Qed.

(** X13.  A mapping compared with itself has no differences: for a dict
    whose keys and values are hashable scalars or tuples of them,
    [_compare_mapping] against the same keys and values yields nothing
    and [_do_mapping_comparison] returns [None]. *)
Theorem compare_mapping_with_itself (entries : list (value * value)) :
  forallb plain (map fst entries) = true ->
  distinct (map fst entries) = true ->
  forallb plain (map snd entries) = true ->
  let mapping := map (fun kv => (fst kv, Obj (snd kv))) entries in
  _compare_mapping repr type_name _get_error (VDict entries) mapping = GDone
  /\ _do_mapping_comparison repr type_name _get_error (VDict entries) mapping
     = Return None.
Proof.
  intros Hk Hd Hv mapping.
  assert (H : _compare_mapping repr type_name _get_error (VDict entries)
                mapping = GDone).
  { unfold _compare_mapping, _compare_mapping_in. cbn [isinstance_Mapping].
    rewrite data_loop_no_difference.
    - apply requirement_loop_all_present. intros k Hin.
      rewrite py_in_fold_set_add; try assumption; try reflexivity.
      + cbn [py_in existsb orb]. unfold mapping in Hin.
        rewrite map_map in Hin. cbn [fst] in Hin.
        apply py_in_member; [ | exact Hin].
        exact (forallb_plain_In _ k Hk Hin).
      + unfold mapping in Hin. rewrite map_map in Hin. cbn [fst] in Hin.
        exact (forallb_plain_In _ k Hk Hin).
    - exact Hk.
    - intros k v Hin. unfold mapping.
      rewrite (mapping_get_requirement_of entries Hk Hd k v Hin).
      apply do_comparison_plain_reflexive.
      exact (forallb_plain_In _ v Hv (in_map snd _ _ Hin)). }
  split; [exact H | ].
  unfold _do_mapping_comparison. rewrite H. reflexivity.
Qed.

End MoreMapping.

Section MoreDispatch.

Variable repr : value -> string.
Variable type_name : value -> string.
Variable _get_error : value -> value -> bool -> difference.

(** X14.  A predicate's bad return value reaches the caller of
    [_do_comparison] at once only when no difference comes before it.
    For a list of data in which the predicate behaves on the elements
    before some element and returns something other than [True], [False]
    or a difference on that element, [_do_comparison] raises the type
    error itself when the elements before gave no difference; otherwise
    it returns an iterator that yields the differences found so far and
    raises the type error only when it is read past them. *)
Theorem do_comparison_defers_bad_return (name : string)
    (function : list value -> outcome)
    (before : list value) (bad : value) (after : list value) (v : value) :
  (forall element,
     In element before ->
     call function element = Throws
     \/ exists b, call function element = Returns (RValue (VBool b))) ->
  call function bad = Returns (RValue v) ->
  (forall b, v <> VBool b) ->
  let error :=
    TypeError (repr (VStr name) ++ " returned " ++ repr v
                 ++ ", should return True, False or DataError") in
  _do_comparison repr type_name _get_error
    (VList (before ++ bad :: after)) (Callable name function)
  = match filter (fun element => match call function element with
                                 | Returns (RValue (VBool true)) => false
                                 | _ => true
                                 end) before with
    | [] => Raise error
    | failed =>
        Return (Lazy (chain (gen_of_list
                               (map (fun element => Invalid element None)
                                  failed))
                            (GRaise error)))
    end.
Proof.
  intros Hbefore Hbad Hv error. unfold _do_comparison, _compare_callable.
  cbn [_is_nsiterable isinstance_Mapping negb orb elements_or_none
       py_is_notfound items_of].
  rewrite callable_loop_app, (callable_loop_boolean repr name function before Hbefore).
  cbn [callable_loop]. unfold call in Hbad. rewrite Hbad.
  assert (Hloop : match v with
                  | VBool true => callable_loop repr name function after
                  | VBool false =>
                      GYield (Invalid bad None)
                        (callable_loop repr name function after)
                  | _ => GRaise error
                  end = GRaise error)
    by (destruct v; try reflexivity; exfalso; eapply Hv; reflexivity).
  unfold error in Hloop. rewrite Hloop.
  destruct (filter _ before); reflexivity.
Qed.

(** X15.  Against an empty requirement, [_compare_mapping] yields one pair
    for every key of the data, in the order of the data: for a value that
    is no iterable and not the sentinel, the single difference
    [_get_error] makes of the value against [NOTFOUND]. *)
Theorem compare_mapping_empty_requirement (entries : list (value * value)) :
  (forall k v,
     In (k, v) entries ->
     unhashable_part k = None
     /\ _is_nsiterable v = false
     /\ py_is_notfound v = false) ->
  _compare_mapping repr type_name _get_error (VDict entries) []
  = gen_of_list
      (map (fun kv => (fst kv, Single (_get_error (snd kv) VNotFound true)))
         entries).
Proof.
  unfold _compare_mapping, _compare_mapping_in. cbn [isinstance_Mapping].
  generalize (@nil value) as data_keys.
  induction entries as [ | [k v] entries IH ]; intros data_keys H.
  - reflexivity.
  - destruct (H k v (or_introl eq_refl)) as (Hk & Hns & Hnf).
    cbn [dict_items map fst snd data_loop unpack_pair iterable isinstance_str
         _is_nsiterable orb items_of mapping_get gen_of_list].
    rewrite Hk. unfold _do_comparison, _compare_other. rewrite Hns.
    cbn [negb orb iterable isinstance_str _is_nsiterable items_of other_loop].
    assert (Hne : match py_ne v VNotFound with
                  | CFalse => false
                  | _ => true
                  end = true)
      by (destruct v; try discriminate Hnf; reflexivity).
    destruct (py_ne v VNotFound); try discriminate Hne;
      cbn [first_or_none truthy materialize report_is_nsiterable andb];
      f_equal; apply (IH (set_add k data_keys));
      intros k' v' Hin; apply H; right; exact Hin.
Qed.

End MoreDispatch.

Section ReportKinds.

Variable repr : value -> string.
Variable type_name : value -> string.
Variable _get_error : value -> value -> bool -> difference.

Lemma do_comparison_report_kinds (data : value) (requirement : requirement)
    (r : report) :
  _do_comparison repr type_name _get_error data requirement = Return r ->
  r = NoDifference
  \/ (exists d, r = Single d)
  \/ (exists message, r = Assertion message)
  \/ (exists g, r = Lazy g).
Proof.
  assert (Hfirst : forall single result,
             first_or_none single result = Return r ->
             r = NoDifference
             \/ (exists d, r = Single d)
             \/ (exists message, r = Assertion message)
             \/ (exists g, r = Lazy g)).
  { intros single result. unfold first_or_none.
    destruct result as [ | d g | e ]; [ | destruct single | ]; intros H;
      try discriminate H; injection H as <-.
    - left. reflexivity.
    - right. left. exists d. reflexivity.
    - right. right. right. eexists. reflexivity. }
  assert (Hseq : forall sequence,
             _compare_sequence repr type_name data sequence = Return r ->
             r = NoDifference
             \/ (exists d, r = Single d)
             \/ (exists message, r = Assertion message)
             \/ (exists g, r = Lazy g)).
  { intros sequence. unfold _compare_sequence.
    destruct (isinstance_str data); [discriminate | ].
    destruct (negb (isinstance_Sequence data)); [discriminate | ].
    destruct (negb (iterable sequence)); [discriminate | ].
    destruct (first_divergence _ 0 VNotFound) as [[b | ] | e]; cbn [bind];
      [ | | discriminate].
    - destruct (divergence_message repr b) as [message | e]; cbn [bind];
        [ | discriminate].
      intros H. injection H as <-. right. right. left.
      exists message. reflexivity.
    - intros H. injection H as <-. left. reflexivity. }
  unfold _do_comparison.
  destruct requirement as [name function | search | other];
    try apply Hfirst.
  destruct other; try apply Hfirst; try apply Hseq.
  destruct (_compare_set repr type_name data members) as [g | e];
    cbn [bind]; [apply Hfirst | discriminate].
Qed.

Lemma materialize_report_kinds (result r : report) :
  (result = NoDifference
   \/ (exists d, result = Single d)
   \/ (exists message, result = Assertion message)
   \/ (exists g, result = Lazy g)) ->
  materialize result = Return r ->
  r = NoDifference
  \/ (exists d, r = Single d)
  \/ (exists message, r = Assertion message)
  \/ (exists l, r = Materialized l).
Proof.
  intros [-> | [[d ->] | [[message ->] | [g ->]]]]; cbn; intros H.
  - injection H as <-. left. reflexivity.
  - injection H as <-. right. left. exists d. reflexivity.
  - injection H as <-. right. right. left. exists message. reflexivity.
  - destruct (to_list g) as [l | e]; cbn in H; [ | discriminate H].
    injection H as <-. right. right. right. exists l. reflexivity.
Qed.

Lemma requirement_loop_report_kinds (data_keys : list value)
    (mapping_items : list (value * requirement)) :
  forall key r,
    In (key, r)
       (yielded (requirement_loop repr type_name _get_error data_keys
                   mapping_items)) ->
    r = NoDifference
    \/ (exists d, r = Single d)
    \/ (exists message, r = Assertion message)
    \/ (exists l, r = Materialized l).
Proof.
  induction mapping_items as [ | [k expected] rest IH ]; intros key r H.
  - destruct H.
  - cbn [requirement_loop] in H.
    destruct (negb (py_in k data_keys)); [ | exact (IH key r H)].
    destruct (_do_comparison repr type_name _get_error VNotFound expected)
      as [result | e] eqn:Ec; cbn [bind] in H; [ | destruct H].
    destruct (materialize result) as [result' | e] eqn:Hm; [ | destruct H].
    destruct H as [H | H]; [ | exact (IH key r H)].
    injection H as _ <-.
    exact (materialize_report_kinds result result'
             (do_comparison_report_kinds _ _ _ Ec) Hm).
Qed.

(** X10.  Every report [_compare_mapping] yields can be read again: it is
    [None], one difference, the [AssertionError] of a sequence
    comparison, or a list of differences, never a one-pass iterator. *)
Theorem compare_mapping_reports_can_be_reread (data : value)
    (mapping : list (value * requirement)) (key : value) (r : report) :
  In (key, r)
     (yielded (_compare_mapping repr type_name _get_error data mapping)) ->
  r = NoDifference
  \/ (exists d, r = Single d)
  \/ (exists message, r = Assertion message)
  \/ (exists l, r = Materialized l).
Proof.
  unfold _compare_mapping, _compare_mapping_in.
  destruct (isinstance_Mapping data); cbn; [ | intros []].
  generalize (@nil value) as data_keys.
  induction (dict_items data) as [ | item rest IH ]; intros data_keys H.
  - exact (requirement_loop_report_kinds data_keys mapping key r H).
  - cbn [data_loop] in H.
    destruct (unpack_pair type_name item) as [[k actual] | e]; [ | destruct H].
    destruct (unhashable_part k); [destruct H | ].
    destruct (_do_comparison repr type_name _get_error actual
                (mapping_get mapping k)) as [result | e] eqn:Ec;
      [ | destruct H].
    destruct (truthy result); [ | exact (IH _ H)].
    destruct (materialize result) as [result' | e] eqn:Hm; [ | destruct H].
    destruct H as [H | H]; [ | exact (IH _ H)].
    injection H as _ <-.
    exact (materialize_report_kinds result result'
             (do_comparison_report_kinds _ _ _ Ec) Hm).
Qed.

End ReportKinds.

(** ** Concrete runs of the properties above *)



Lemma do_comparison_single_value_equality_witness :
  _do_comparison repr_basic type_name_basic nonnumeric_difference
    (VStr "XX") (Obj (VStr "A"))
  = Return (if is_true (py_eq (VStr "XX") (VStr "A")) then NoDifference
            else Single (nonnumeric_difference (VStr "XX") (VStr "A") true)).
Proof.
  apply (do_comparison_single_value_equality repr_basic type_name_basic
           nonnumeric_difference (VStr "XX") (VStr "A")).
  - reflexivity.
  - left. reflexivity.
  - reflexivity.
Defined.

Lemma do_comparison_report_shape_witness :
  Single (Invalid (VStr "XX") None) = NoDifference
  \/ exists d, Single (Invalid (VStr "XX") None) = Single d.
Proof.
  apply (do_comparison_report_shape repr_basic type_name_basic
           nonnumeric_difference (VStr "XX") (Callable "<lambda>" isdigit)
           (Single (Invalid (VStr "XX") None))).
  - intros items H. discriminate H.
  - intros items H. discriminate H.
  - intros members H. discriminate H.
  - reflexivity.
Defined.

Lemma do_comparison_set_None_iff_same_members_witness :
  _do_comparison repr_basic type_name_basic nonnumeric_difference
    (VList [VStr "a"; VStr "b"; VStr "a"]) (Obj (VSet [VStr "b"; VStr "a"]))
  = Return NoDifference
  <-> forall x, plain x = true ->
                py_in x [VStr "a"; VStr "b"; VStr "a"]
                = py_in x [VStr "b"; VStr "a"].
Proof.
  apply (do_comparison_set_None_iff_same_members repr_basic type_name_basic
           nonnumeric_difference
           (VList [VStr "a"; VStr "b"; VStr "a"]) [VStr "b"; VStr "a"]);
    reflexivity.
Defined.

Lemma compare_set_exact_reports_witness :
  _compare_set repr_basic type_name_basic
    (VSet ([VStr "a"; VStr "b"] ++ [VStr "x"])) [VStr "a"; VStr "b"]
  = Return (gen_of_list [Extra (VStr "x")])
  /\ _compare_set repr_basic type_name_basic
       (VSet ([VStr "a"] ++ [VStr "c"])) [VStr "a"; VStr "b"; VStr "c"]
     = Return (gen_of_list [Missing (VStr "b")]).
Proof.
  split.
  - apply (proj1 (proj2 (compare_set_exact_reports repr_basic type_name_basic
                           [VStr "a"; VStr "b"] eq_refl eq_refl)));
      reflexivity.
  - apply (proj2 (proj2 (compare_set_exact_reports repr_basic type_name_basic
                           [VStr "a"; VStr "b"; VStr "c"] eq_refl eq_refl))
             [VStr "a"] (VStr "b") [VStr "c"]).
    reflexivity.
Defined.

Lemma compare_mapping_reports_can_be_reread_witness :
  Materialized [Missing (VStr "y")] = NoDifference
  \/ (exists d, Materialized [Missing (VStr "y")] = Single d)
  \/ (exists message, Materialized [Missing (VStr "y")] = Assertion message)
  \/ (exists l, Materialized [Missing (VStr "y")] = Materialized l).
Proof.
  apply (compare_mapping_reports_can_be_reread repr_basic type_name_basic
           nonnumeric_difference
           (VDict [(VStr "a", VList [VStr "x"; VStr "x"])])
           [(VStr "a", Obj (VSet [VStr "x"; VStr "y"]))]
           (VStr "a")).
  left. reflexivity.
Defined.

Lemma compare_mapping_None_only_for_missing_keys_witness :
  py_in (VStr "b") (map fst [(VStr "a", VStr "x")]) = false.
Proof.
  apply (compare_mapping_None_only_for_missing_keys repr_basic type_name_basic
           nonnumeric_difference [(VStr "a", VStr "x")]
           [(VStr "a", Obj (VStr "x")); (VStr "b", Obj (VSet []))]
           (VStr "b")).
  - reflexivity.
  - reflexivity.
  - left. reflexivity.
Defined.

Lemma compare_mapping_empty_data_reports_every_key_witness :
  Forall2
    (fun yielded_pair item =>
       fst yielded_pair = fst item
       /\ (result <- _do_comparison repr_basic type_name_basic
                       nonnumeric_difference VNotFound (snd item) ;;
           materialize result) = Return (snd yielded_pair))
    (yielded (_compare_mapping repr_basic type_name_basic
                nonnumeric_difference (VDict [])
                [(VStr "a", Obj (VSet [])); (VStr "b", Obj (VStr "z"))]))
    [(VStr "a", Obj (VSet [])); (VStr "b", Obj (VStr "z"))].
Proof.
  apply (compare_mapping_empty_data_reports_every_key repr_basic
           type_name_basic nonnumeric_difference).
  reflexivity.
Defined.

Lemma compare_mapping_with_itself_witness :
  _compare_mapping repr_basic type_name_basic nonnumeric_difference
    (VDict [(VStr "a", VStr "x"); (VStr "b", VTuple [VInt 1; VInt 2])])
    [(VStr "a", Obj (VStr "x")); (VStr "b", Obj (VTuple [VInt 1; VInt 2]))]
  = GDone.
Proof.
  apply (proj1 (compare_mapping_with_itself repr_basic type_name_basic
                  nonnumeric_difference
                  [(VStr "a", VStr "x"); (VStr "b", VTuple [VInt 1; VInt 2])]
                  eq_refl eq_refl eq_refl)).
Defined.

Lemma do_comparison_defers_bad_return_witness :
  _do_comparison repr_basic type_name_basic nonnumeric_difference
    (VList ([VStr "XX"] ++ VStr "10" :: [VStr "20"]))
    (Callable "func"
       (fun arguments =>
          match arguments with
          | [VStr "10"] => Returns (RValue VNone)
          | _ => Returns (RValue (VBool false))
          end))
  = Return
      (Lazy (chain (gen_of_list [Invalid (VStr "XX") None])
                   (GRaise (TypeError
                              ("'func' returned None, "
                                 ++ "should return True, False or DataError"))))).
Proof.
  apply (do_comparison_defers_bad_return repr_basic type_name_basic
           nonnumeric_difference "func"
           (fun arguments =>
              match arguments with
              | [VStr "10"] => Returns (RValue VNone)
              | _ => Returns (RValue (VBool false))
              end)
           [VStr "XX"] (VStr "10") [VStr "20"] VNone).
  - intros element [<- | []]. right. exists false. reflexivity.
  - reflexivity.
  - intros b H. discriminate H.
Defined.

Lemma compare_mapping_empty_requirement_witness :
  _compare_mapping repr_basic type_name_basic nonnumeric_difference
    (VDict [(VStr "a", VStr "x"); (VStr "b", VStr "y")]) []
  = gen_of_list
      (map (fun kv => (fst kv,
                       Single (nonnumeric_difference (snd kv) VNotFound true)))
         [(VStr "a", VStr "x"); (VStr "b", VStr "y")]).
Proof.
  apply (compare_mapping_empty_requirement repr_basic type_name_basic
           nonnumeric_difference
           [(VStr "a", VStr "x"); (VStr "b", VStr "y")]).
  intros k v [H | [H | []]]; injection H as <- <-; repeat split.
Defined.
